(** * Session store of the Instagram downloader client

    A shallow embedding of [instagram_downloader/client.py] (class
    [InstagramClient]) and of [test_session.py] ([check_session_file]),
    with the properties of the session store proved about it.

    Modelling conventions.
    - A parsed JSON document is a value of [json]; a Python [dict] is an
      association list in insertion order, [None] is [JNull].
    - JSON numbers and [time.time()] readings are rationals: every finite
      Python [int] or [float] is one, and Python compares the two by exact
      value.  [NaN] and the infinities are outside the model.
    - Strings are byte strings (UTF-8).  [lower] is [str.lower] on the
      strings that [str.isascii] accepts; it leaves every other byte
      alone, where Python follows Unicode.  What is proved of the
      lower-cased user name is proved of ASCII user names, the only ones
      Instagram gives out.
    - Python exceptions are explicit: a computation that may raise has type
      [exc A].
    - The session directory is an ordered listing of file names with their
      contents; the order of the listing is the order in which [glob]
      yields the names.  A name is a single path component.  A file holds
      either a JSON document or text that is not JSON, for which
      [json.load] raises [JSONDecodeError]; a file that is not text, for
      which it raises [UnicodeDecodeError], has no counterpart in a
      listing.  Writing a file and unlinking an existing file succeed
      (permissions and disk errors are not modelled).
    - The file system refuses a name of more than [NAME_MAX] bytes:
      [stat] then fails and [Path.exists()] lets the [OSError] through.
      This is modelled in [remove_session], of which the specification
      says that it does not raise; the session path of a client is taken
      to be a name that the file system accepts.
    - Every reading of the clock and every observation of the browser is an
      explicit argument of the function that makes it. *)

From Stdlib Require Import List String Ascii Bool Arith ZArith QArith Lia Lqa.
From Stdlib Require Import Permutation Sorted.
From Equations Require Import Equations.
Import ListNotations.

Local Open Scope string_scope.

Set Warnings "-register-all".

(** ** Strings *)

Module Str.

(** [str.isascii()]: every byte is below 128. *)
Fixpoint isascii (s : string) : bool :=
  match s with
  | EmptyString => true
  | String c s' => (nat_of_ascii c <? 128)%nat && isascii s'
  end.

(** [str.lower()] on a string that [isascii] accepts: the letters [A] to
    [Z] become [a] to [z].  Bytes from 128 on are left as they are,
    which is not what Python does with the characters they encode. *)
Definition lower_ascii (c : ascii) : ascii :=
  let n := nat_of_ascii c in
  if (65 <=? n)%nat && (n <=? 90)%nat then ascii_of_nat (n + 32) else c.

Fixpoint lower (s : string) : string :=
  match s with
  | EmptyString => EmptyString
  | String c s' => String (lower_ascii c) (lower s')
  end.

(** [s.startswith(p)] *)
Fixpoint startswith (p s : string) : bool :=
  match p, s with
  | EmptyString, _ => true
  | String a p', String b s' => Ascii.eqb a b && startswith p' s'
  | String _ _, EmptyString => false
  end.

(** [s.endswith(p)] *)
Fixpoint endswith (p s : string) : bool :=
  match s with
  | EmptyString => String.eqb p EmptyString
  | String _ s' => String.eqb p s || endswith p s'
  end.

(** [p in s] for two strings: [p] occurs in [s]. *)
Fixpoint contains (p s : string) : bool :=
  startswith p s ||
  match s with
  | EmptyString => false
  | String _ s' => contains p s'
  end.

(** [s.replace(p, r)] for a non-empty [p]: every occurrence of [p], found
    from left to right without overlap, is replaced.  [skip] counts the
    characters of the occurrence just replaced that are still to be
    passed over. *)
Fixpoint replace_from (p r s : string) (skip : nat) : string :=
  match s with
  | EmptyString => EmptyString
  | String c s' =>
      match skip with
      | S k => replace_from p r s' k
      | O =>
          if startswith p s
          then r ++ replace_from p r s' (String.length p - 1)
          else String c (replace_from p r s' 0)
      end
  end.

Definition replace (p r s : string) : string := replace_from p r s 0.

(** The characters of a string, as [for c in s] yields them. *)
Fixpoint chars (s : string) : list string :=
  match s with
  | EmptyString => []
  | String c s' => String c EmptyString :: chars s'
  end.

End Str.

(** ** Exceptions *)

Inductive exn : Type :=
| TypeError
| AttributeError
| KeyError
| JSONDecodeError
| OSError
| PlaywrightError
| OtherError.

Inductive exc (A : Type) : Type :=
| Ret (a : A)
| Raise (e : exn).

Arguments Ret {A} a.
Arguments Raise {A} e.

Definition bind {A B : Type} (c : exc A) (k : A -> exc B) : exc B :=
  match c with
  | Ret a => k a
  | Raise e => Raise e
  end.

Notation "x <- c ;; k" := (bind c (fun x => k))
  (at level 61, c at next level, right associativity).

(** [try: c except Exception: h] *)
Definition try_except {A : Type} (c : exc A) (h : exn -> A) : A :=
  match c with
  | Ret a => a
  | Raise e => h e
  end.

(** ** JSON values and the Python operations the client applies to them *)

Inductive json : Type :=
| JNull
| JBool (b : bool)
| JNum (q : Q)
| JStr (s : string)
| JArr (items : list json)
| JObj (fields : list (string * json)).

Module Py.

Fixpoint assoc_get {A : Type} (k : string) (kvs : list (string * A)) : option A :=
  match kvs with
  | [] => None
  | (k', v) :: rest => if String.eqb k k' then Some v else assoc_get k rest
  end.

(** [d[k] = v] on a dict: an existing key keeps its place. *)
Fixpoint assoc_set {A : Type} (k : string) (v : A) (kvs : list (string * A))
  : list (string * A) :=
  match kvs with
  | [] => [(k, v)]
  | (k', v') :: rest =>
      if String.eqb k k' then (k, v) :: rest else (k', v') :: assoc_set k v rest
  end.

Definition Qltb (x y : Q) : bool := negb (Qle_bool y x).

Definition is_str (s : string) (j : json) : bool :=
  match j with
  | JStr s' => String.eqb s s'
  | _ => false
  end.

(** Truth value of a JSON value ([if x], [not x]). *)
Definition truthy (j : json) : bool :=
  match j with
  | JNull => false
  | JBool b => b
  | JNum q => negb (Qeq_bool q 0)
  | JStr s => negb (String.eqb s "")
  | JArr l => match l with [] => false | _ => true end
  | JObj kvs => match kvs with [] => false | _ => true end
  end.

(** [k in x] for a string literal [k]. *)
Definition contains (k : string) (j : json) : exc bool :=
  match j with
  | JObj kvs => Ret (match assoc_get k kvs with Some _ => true | None => false end)
  | JArr l => Ret (existsb (is_str k) l)
  | JStr s => Ret (Str.contains k s)
  | _ => Raise TypeError
  end.

(** [x[k]] for a string literal [k]. *)
Definition getitem (k : string) (j : json) : exc json :=
  match j with
  | JObj kvs => match assoc_get k kvs with Some v => Ret v | None => Raise KeyError end
  | _ => Raise TypeError
  end.

(** [x[k] = v] for a string literal [k]. *)
Definition setitem (k : string) (v : json) (j : json) : exc json :=
  match j with
  | JObj kvs => Ret (JObj (assoc_set k v kvs))
  | _ => Raise TypeError
  end.

(** [x.get(k, d)] *)
Definition get (k : string) (d : json) (j : json) : exc json :=
  match j with
  | JObj kvs => Ret (match assoc_get k kvs with Some v => v | None => d end)
  | _ => Raise AttributeError
  end.

(** The elements [for c in x] runs through. *)
Definition iter (j : json) : exc (list json) :=
  match j with
  | JArr l => Ret l
  | JObj kvs => Ret (map (fun kv => JStr (fst kv)) kvs)
  | JStr s => Ret (map JStr (Str.chars s))
  | _ => Raise TypeError
  end.

(** The number a value stands for in a comparison, [bool] being a
    subclass of [int]. *)
Definition as_number (j : json) : option Q :=
  match j with
  | JNum q => Some q
  | JBool true => Some 1%Q
  | JBool false => Some 0%Q
  | _ => None
  end.

(** [x > t] for a [float] [t]. *)
Definition gt_float (j : json) (t : Q) : exc bool :=
  match as_number j with
  | Some q => Ret (Qltb t q)
  | None => Raise TypeError
  end.

End Py.

(** ** The session directory *)

(** A file holds a JSON document, or text that [json.load] rejects. *)
Definition directory : Type := list (string * option json).

Module Fs.

(** The name is in the listing: what [Path.exists()] returns for a name
    that the file system accepts. *)
Definition exists_ (name : string) (dir : directory) : bool :=
  match Py.assoc_get name dir with
  | Some _ => true
  | None => false
  end.

(** The longest file name, in bytes, that the file system takes. *)
Definition NAME_MAX : nat := 255.

(** [Path.exists()] for a file of an existing directory: [stat] fails
    with [ENAMETOOLONG] on a longer name, an [OSError] that [exists]
    raises again (it returns false only when the file or a directory on
    the way to it is missing). *)
Definition path_exists (name : string) (dir : directory) : exc bool :=
  if (NAME_MAX <? String.length name)%nat then Raise OSError
  else Ret (exists_ name dir).

(** [json.load(open(path, 'r'))]: text that is not JSON raises
    [JSONDecodeError]. *)
Definition read_json (name : string) (dir : directory) : exc json :=
  match Py.assoc_get name dir with
  | Some (Some j) => Ret j
  | Some None => Raise JSONDecodeError
  | None => Raise OSError
  end.

(** [json.dump(j, open(path, 'w'))] *)
Definition write_json (name : string) (j : json) (dir : directory) : directory :=
  Py.assoc_set name (Some j) dir.

(** [Path.unlink()] *)
Definition unlink (name : string) (dir : directory) : exc directory :=
  if exists_ name dir
  then Ret (filter (fun f => negb (String.eqb name (fst f))) dir)
  else Raise OSError.

(** [Path.glob("*_session.json")], in the order of the listing. *)
Definition glob_session_files (dir : directory) : list string :=
  filter (Str.endswith "_session.json") (map fst dir).

End Fs.

(** ** The client *)

Definition BASE_URL : string := "https://www.instagram.com/".
Definition PROFILE_URL : string := "https://www.instagram.com/accounts/edit/".

(** The fields of [InstagramClient] the session logic reads or writes.
    [session_path] is the name of the session file inside the session
    directory; [page] tells whether a browser page is open. *)
Record client : Type := mkClient {
  username : option string;
  session_path : string;
  page : bool;
  is_logged_in : bool;
  current_username : json
}.

Definition set_page (b : bool) (c : client) : client :=
  mkClient (username c) (session_path c) b (is_logged_in c) (current_username c).

Definition set_is_logged_in (b : bool) (c : client) : client :=
  mkClient (username c) (session_path c) (page c) b (current_username c).

Definition set_current_username (u : json) (c : client) : client :=
  mkClient (username c) (session_path c) (page c) (is_logged_in c) u.

Definition set_username_and_path (u : option string) (p : string) (c : client) : client :=
  mkClient u p (page c) (is_logged_in c) (current_username c).

(** Truth value of an [Optional[str]]. *)
Definition truthy_str (u : option string) : bool :=
  match u with
  | Some s => negb (String.eqb s "")
  | None => false
  end.

Definition opt_str_json (u : option string) : json :=
  match u with
  | Some s => JStr s
  | None => JNull
  end.

(** The file name [__init__] chooses (lines 66-73). *)
Definition init_session_path (username : option string) : string :=
  match username with
  | Some u =>
      if negb (String.eqb u "") then Str.lower u ++ "_session.json"
      else "default_session.json"
  | None => "default_session.json"
  end.

(** [InstagramClient.__init__] *)
Definition init (username : option string) : client :=
  {| username := username;
     session_path := init_session_path username;
     page := false;
     is_logged_in := false;
     current_username := JNull |}.

(** [_save_session]: [storage_state] is what the browser context returns,
    [t_created] and [t_last_used] are the two clock readings. *)
Definition _save_session (c : client) (storage_state : exc json)
    (t_created t_last_used : Q) (dir : directory) : directory :=
  if negb (is_logged_in c) || negb (page c) then dir
  else
    try_except
      (state <- storage_state ;;
       let session_data :=
         JObj [("storage_state", state);
               ("metadata",
                JObj [("username", current_username c);
                      ("created_at", JNum t_created);
                      ("last_used", JNum t_last_used)])] in
       Ret (Fs.write_json (session_path c) session_data dir))
      (fun _ => dir).

(** Lines 352-365 of [load_session]: the metadata is read, the resolved
    user name stored and the file written back with a new [last_used].
    Once [metadata.get] has returned, [metadata] is a dict and nothing
    after the assignment of [current_username] raises. *)
Definition load_metadata (c : client) (session_data : json) (t_touch : Q)
    (dir : directory) : exc (client * directory) :=
  has_metadata <- Py.contains "metadata" session_data ;;
  if has_metadata : bool then
    metadata <- Py.getitem "metadata" session_data ;;
    u <- Py.get "username" JNull metadata ;;
    let u' :=
      if negb (Py.truthy u) && truthy_str (username c)
      then opt_str_json (username c) else u in
    let c' := set_current_username u' c in
    metadata' <- Py.setitem "last_used" (JNum t_touch) metadata ;;
    session_data' <- Py.setitem "metadata" metadata' session_data ;;
    Ret (c', Fs.write_json (session_path c) session_data' dir)
  else Ret (c, dir).

(** The [for cookie in cookies] loop of [load_session] (lines 344-367);
    the boolean is [session_valid]. *)
Fixpoint load_cookies (c : client) (session_data : json) (current_time t_touch : Q)
    (dir : directory) (cookies : list json) : exc (bool * (client * directory)) :=
  match cookies with
  | [] => Ret (false, (c, dir))
  | cookie :: rest =>
      name <- Py.get "name" JNull cookie ;;
      if Py.is_str "sessionid" name then
        expires <- Py.get "expires" (JNum 0) cookie ;;
        later <- Py.gt_float expires current_time ;;
        if later : bool then
          r <- load_metadata c session_data t_touch dir ;;
          Ret (true, r)
        else load_cookies c session_data current_time t_touch dir rest
      else load_cookies c session_data current_time t_touch dir rest
  end.

(** The branch [load_session] leaves by, named after what it logs. *)
Inductive load_result : Type :=
| NotFound
| Loaded
| InvalidOrExpired
| InvalidFormat
| ErrorValidating (e : exn).

(** The boolean [load_session] returns on each branch. *)
Definition returned (r : load_result) : bool :=
  match r with
  | Loaded => true
  | _ => false
  end.

(** The body of [load_session]: [current_time] is the clock reading the
    expiry is compared with, [t_touch] the one stored as [last_used]. *)
Definition load_session_result (c : client) (current_time t_touch : Q)
    (dir : directory) : load_result * (client * directory) :=
  if negb (Fs.exists_ (session_path c) dir) then (NotFound, (c, dir))
  else
    try_except
      (session_data <- Fs.read_json (session_path c) dir ;;
       has_state <- Py.contains "storage_state" session_data ;;
       if has_state : bool then
         storage_state <- Py.getitem "storage_state" session_data ;;
         cookies <- Py.get "cookies" (JArr []) storage_state ;;
         items <- Py.iter cookies ;;
         r <- load_cookies c session_data current_time t_touch dir items ;;
         let '(session_valid, (c', dir')) := r in
         if session_valid : bool
         then Ret (Loaded, (set_is_logged_in true c', dir'))
         else Ret (InvalidOrExpired, (c', dir'))
       else Ret (InvalidFormat, (c, dir)))
      (fun e => (ErrorValidating e, (c, dir))).

(** [load_session] *)
Definition load_session (c : client) (current_time t_touch : Q) (dir : directory)
  : bool * (client * directory) :=
  let '(r, s) := load_session_result c current_time t_touch dir in
  (returned r, s).

(** ** Listing the sessions *)

(** One dictionary of the list [list_sessions] returns. *)
Module Entry.
Record t : Type := mk {
  username : json;
  file_path : string;
  file_name : string;
  created_at : json;
  last_used : json;
  file_size : Z;
  is_valid : bool
}.
End Entry.

(** What [Path.stat()] reports for a file. *)
Record stat_result : Type := mkStat {
  st_mtime : Q;
  st_size : Z
}.

Definition unknown_username : string := "نامشخص".

(** Lines 418-423: the user name a file name carries. *)
Definition filename_username (file_name : string) : option string :=
  if Str.endswith "_session.json" file_name then
    let u := Str.replace "_session.json" "" file_name in
    if String.eqb u "default" then None else Some u
  else None.

(** Lines 453-458: is there a [sessionid] cookie that expires later than
    [current_time]?  The loop stops at the first one. *)
Fixpoint any_valid_sessionid (current_time : Q) (cookies : list json) : exc bool :=
  match cookies with
  | [] => Ret false
  | cookie :: rest =>
      name <- Py.get "name" JNull cookie ;;
      if Py.is_str "sessionid" name then
        expires <- Py.get "expires" (JNum 0) cookie ;;
        later <- Py.gt_float expires current_time ;;
        if later : bool then Ret true else any_valid_sessionid current_time rest
      else any_valid_sessionid current_time rest
  end.

(** Lines 446-458: the [is_valid] field. *)
Definition compute_is_valid (session_data : json) (current_time : Q) : exc bool :=
  has_state <- Py.contains "storage_state" session_data ;;
  if has_state : bool then
    storage_state <- Py.getitem "storage_state" session_data ;;
    cookies <- Py.get "cookies" (JArr []) storage_state ;;
    items <- Py.iter cookies ;;
    any_valid_sessionid current_time items
  else Ret false.

(** Lines 441-444: the user name shown for a file. *)
Definition display_username (metadata_username : json) (filename_username : option string)
  : json :=
  let username :=
    if Py.truthy metadata_username then metadata_username
    else opt_str_json filename_username in
  if negb (Py.truthy username) then JStr unknown_username else username.

(** The body of the [try] of [list_sessions] for one file (lines 416-468). *)
Definition session_entry (dir_path : string) (stat : string -> stat_result)
    (current_time : Q) (dir : directory) (file_name : string) : exc Entry.t :=
  let from_name := filename_username file_name in
  session_data <- Fs.read_json file_name dir ;;
  has_metadata <- Py.contains "metadata" session_data ;;
  fields <-
    (if has_metadata : bool then
       metadata <- Py.getitem "metadata" session_data ;;
       metadata_username <- Py.get "username" JNull metadata ;;
       created_at <- Py.get "created_at" (JNum 0) metadata ;;
       last_used <- Py.get "last_used" (JNum 0) metadata ;;
       Ret (metadata_username, (created_at, last_used))
     else
       let created_at := JNum (st_mtime (stat file_name)) in
       Ret (JNull, (created_at, created_at))) ;;
  let '(metadata_username, (created_at, last_used)) := fields in
  is_valid <- compute_is_valid session_data current_time ;;
  Ret (Entry.mk (display_username metadata_username from_name)
                (dir_path ++ "/" ++ file_name)
                file_name created_at last_used
                (st_size (stat file_name)) is_valid).

(** Line 409: the files [list_sessions] looks at. *)
Definition session_files (dir : directory) : list string :=
  (Fs.glob_session_files dir ++ ["default_session.json"])%list.

(** The [for session_file in session_files] loop: [i] counts the files
    looked at so far, [clock i] is the clock reading while the file at
    position [i] is examined. *)
Fixpoint collect_sessions (dir_path : string) (stat : string -> stat_result)
    (clock : nat -> Q) (dir : directory) (i : nat) (files : list string)
    (sessions : list Entry.t) : list Entry.t :=
  match files with
  | [] => sessions
  | session_file :: rest =>
      let sessions' :=
        if negb (Fs.exists_ session_file dir) then sessions
        else
          try_except
            (e <- session_entry dir_path stat (clock i) dir session_file ;;
             Ret (sessions ++ [e])%list)
            (fun _ => sessions) in
      collect_sessions dir_path stat clock dir (S i) rest sessions'
  end.

(** [a < b] between two sort keys.  Numbers compare by value and strings
    by code point; [None] and dicts do not compare.  Python also orders
    two lists, element by element: the model does not, and the exception
    it gives for two arrays stands for a result it does not predict. *)
Definition key_lt (a b : json) : exc bool :=
  match Py.as_number a, Py.as_number b with
  | Some x, Some y => Ret (Py.Qltb x y)
  | _, _ =>
      match a, b with
      | JStr s, JStr t => Ret (String.ltb s t)
      | JArr _, JArr _ => Raise OtherError
      | _, _ => Raise TypeError
      end
  end.

(** A stable ascending sort that, like [list.sort], only asks [<]. *)
Fixpoint insert_by_last_used (x : Entry.t) (l : list Entry.t) : exc (list Entry.t) :=
  match l with
  | [] => Ret [x]
  | y :: l' =>
      before <- key_lt (Entry.last_used y) (Entry.last_used x) ;;
      if before : bool then
        r <- insert_by_last_used x l' ;;
        Ret (y :: r)
      else Ret (x :: l)
  end.

Fixpoint sort_by_last_used (l : list Entry.t) : exc (list Entry.t) :=
  match l with
  | [] => Ret []
  | x :: l' =>
      s <- sort_by_last_used l' ;;
      insert_by_last_used x s
  end.

(** [sorted(sessions, key=..., reverse=True)]: the list is reversed, sorted
    in ascending order and reversed again, which keeps the sort stable. *)
Definition sorted_reverse (sessions : list Entry.t) : exc (list Entry.t) :=
  s <- sort_by_last_used (rev sessions) ;;
  Ret (rev s).

(** [list_sessions]; [None] is a session directory that does not exist. *)
Definition list_sessions (dir_path : string) (stat : string -> stat_result)
    (clock : nat -> Q) (dir : option directory) : exc (list Entry.t) :=
  match dir with
  | None => Ret []
  | Some d =>
      sorted_reverse (collect_sessions dir_path stat clock d 0 (session_files d) [])
  end.

(** ** Removing a session *)

(** Lines 495-500: the file [remove_session] looks for. *)
Definition remove_session_file (username : string) : string :=
  let session_file := Str.lower username ++ "_session.json" in
  if String.eqb (Str.lower username) "default" then "default_session.json"
  else session_file.

(** [remove_session]; [None] is a session directory that does not
    exist, in which [exists()] finds no file whatever its name.  The
    call of [exists()] (line 503) is outside the [try]: what it raises,
    [remove_session] raises. *)
Definition remove_session (username : string) (dir : option directory)
  : exc (bool * option directory) :=
  let session_file := remove_session_file username in
  match dir with
  | None => Ret (false, dir)
  | Some d =>
      there <- Fs.path_exists session_file d ;;
      if negb there then Ret (false, dir)
      else
        Ret (try_except
               (d' <- Fs.unlink session_file d ;;
                Ret (true, Some d'))
               (fun _ => (false, dir)))
  end.

(** ** The stand-alone check of [test_session.py] *)

(** [len(x)] *)
Definition py_len (j : json) : exc nat :=
  match j with
  | JArr l => Ret (List.length l)
  | JObj kvs => Ret (List.length kvs)
  | JStr s => Ret (List.length (Str.chars s))
  | _ => Raise TypeError
  end.

Definition is_dict (j : json) : bool :=
  match j with
  | JObj _ => true
  | _ => false
  end.

(** [check_session_file]: only [JSONDecodeError] is caught, so the result
    may be an exception. *)
Definition check_session_file (name : string) (dir : directory) : exc bool :=
  if negb (Fs.exists_ name dir) then Ret false
  else
    match Fs.read_json name dir with
    | Raise JSONDecodeError => Ret false
    | Raise e => Raise e
    | Ret session_data =>
        if negb (is_dict session_data) then Ret false
        else
          has_cookies <- Py.contains "cookies" session_data ;;
          has_origins <- Py.contains "origins" session_data ;;
          let missing_keys :=
            ((if has_cookies : bool then [] else ["cookies"]) ++
             (if has_origins : bool then [] else ["origins"]))%list in
          match missing_keys with
          | _ :: _ => Ret false
          | [] =>
              cookies <- Py.get "cookies" (JArr []) session_data ;;
              _ <- (if negb (Py.truthy cookies) then Ret 0%nat
                    else c <- Py.getitem "cookies" session_data ;; py_len c) ;;
              _ <- py_len cookies ;;
              origins <- Py.get "origins" (JArr []) session_data ;;
              _ <- py_len origins ;;
              Ret true
          end
    end.

(** ** Logging in by hand *)

(** What the program does to the outside world while it logs in: the
    browser launches, the waits for a location and the pauses. *)
Inductive event : Type :=
| InitBrowser
| WaitForUrl (url : string) (timeout_ms elapsed_ms : Z)
| Sleep (seconds : Z).

(** What the browser shows [verify_login_status]. *)
Record verify_obs : Type := mkVerify {
  goto_profile : exc unit;
  profile_url : string;
  username_value : exc (option string);
  goto_base : exc unit;
  profile_alt : exc (option string)
}.

(** What the browser does during one turn of the loop of [manual_login]:
    [navigations] lists, in order of time, the moments (milliseconds after
    the wait began) at which the location of the page changed, with the
    new location. *)
Record attempt : Type := mkAttempt {
  init_ok : bool;
  goto_login : exc unit;
  navigations : list (Z * string);
  verify : verify_obs;
  storage_state : exc json;
  t_created : Q;
  t_last_used : Q
}.

(** [page.wait_for_url(url, timeout=...)], as its call site uses it: it
    returns once the page is at [url], and raises Playwright's
    [TimeoutError], a [PlaywrightError], when the page has not got there
    within [timeout_ms] milliseconds.  The result is the time waited. *)
Fixpoint wait_for_url (url : string) (timeout_ms : Z) (navs : list (Z * string))
  : exc Z :=
  match navs with
  | [] => Raise PlaywrightError
  | (t, u) :: rest =>
      if (timeout_ms <? t)%Z then Raise PlaywrightError
      else if String.eqb u url then Ret t
      else wait_for_url url timeout_ms rest
  end.

(** [alt_text.split("'")[0]] *)
Fixpoint before_quote (s : string) : string :=
  match s with
  | EmptyString => EmptyString
  | String c s' => if Ascii.eqb c "'"%char then EmptyString else String c (before_quote s')
  end.

(** Lines 171-190: the user name read from the page, with the pauses made
    on the way. *)
Definition extract_username (obs : verify_obs) : list event * exc (option string) :=
  match username_value obs with
  | Raise e => ([], Raise e)
  | Ret extracted =>
      if truthy_str extracted then ([], Ret extracted)
      else
        match goto_base obs with
        | Raise e => ([], Raise e)
        | Ret _ =>
            ([Sleep 2],
             alt_text <- profile_alt obs ;;
             match alt_text with
             | Some alt =>
                 if truthy_str alt_text && Str.contains "profile picture" (Str.lower alt)
                 then Ret (Some (before_quote alt))
                 else Ret extracted
             | None => Ret extracted
             end)
        end
  end.

(** Lines 207-212 and 215-221: the user name of the client stands in. *)
Definition fall_back_on_username (c : client) : client :=
  set_is_logged_in true
    (if truthy_str (username c)
     then set_current_username (opt_str_json (username c)) c
     else c).

(** [verify_login_status] *)
Definition verify_login_status (c : client) (obs : verify_obs)
  : (bool * client) * list event :=
  if negb (page c) then ((false, c), [])
  else
    match goto_profile obs with
    | Raise _ => ((false, c), [])
    | Ret _ =>
        if Str.contains "login" (profile_url obs) then ((false, c), [])
        else
          let '(log, extracted) := extract_username obs in
          match extracted with
          | Raise _ => ((true, fall_back_on_username c), log)
          | Ret extracted_username =>
              if truthy_str extracted_username then
                let c1 := set_current_username (opt_str_json extracted_username) c in
                let c2 :=
                  if negb (truthy_str (username c1)) && truthy_str extracted_username
                  then
                    set_username_and_path extracted_username
                      (match extracted_username with
                       | Some u => Str.lower u ++ "_session.json"
                       | None => session_path c1
                       end) c1
                  else c1 in
                ((true, set_is_logged_in true c2), log)
              else ((true, fall_back_on_username c), log)
          end
    end.

(** How one turn of the [while] loop of [manual_login] ends. *)
Inductive turn : Type :=
| Return (result : bool) (c : client) (dir : directory)
| Continue (c : client).

(** Lines 247-271: the body of the [try] after the browser has started. *)
Definition login_try (c : client) (a : attempt) (dir : directory)
  : list event * exc (bool * (client * directory)) :=
  match goto_login a with
  | Raise e => ([], Raise e)
  | Ret _ =>
      match wait_for_url BASE_URL 300000 (navigations a) with
      | Raise e => ([WaitForUrl BASE_URL 300000 300000], Raise e)
      | Ret elapsed =>
          let waited := [WaitForUrl BASE_URL 300000 elapsed] in
          let page_url := BASE_URL in
          if negb (Str.contains "accounts/login" page_url) then
            let '((ok, c'), log) := verify_login_status c (verify a) in
            if ok : bool then
              let dir' :=
                _save_session c' (storage_state a) (t_created a) (t_last_used a) dir in
              ((waited ++ log)%list, Ret (true, (c', dir')))
            else ((waited ++ log)%list, Ret (false, (c', dir)))
          else (waited, Ret (false, (c, dir)))
      end
  end.

(** One turn of the loop (lines 240-285), [retry_count] being the counter
    on entry; the [finally] clause closes the page on every path. *)
Definition login_turn (max_retries retry_count : nat) (c : client) (a : attempt)
    (dir : directory) : turn * list event :=
  if negb (init_ok a) then
    (Continue (set_page false c), [InitBrowser; Sleep 2])
  else
    let c := set_page true c in
    let '(log, r) := login_try c a dir in
    match r with
    | Ret (result, (c', dir')) =>
        (Return result (set_page false c') dir', InitBrowser :: log)
    | Raise PlaywrightError =>
        (Continue (set_page false c),
         (InitBrowser :: log ++
          (if (S retry_count <? max_retries)%nat then [Sleep 2] else []))%list)
    | Raise _ => (Return false (set_page false c) dir, InitBrowser :: log)
    end.

(** The loop [while retry_count < max_retries] of [manual_login]; [env n]
    is what the browser does in the turn entered with [retry_count = n]. *)
Equations manual_login_loop (max_retries : nat) (env : nat -> attempt)
    (dir : directory) (c : client) (retry_count : nat)
  : (bool * (client * directory)) * list event
  by wf (max_retries - retry_count)%nat Nat.lt :=
manual_login_loop max_retries env dir c retry_count
  with lt_dec retry_count max_retries => {
  | right _ => ((false, (c, dir)), [])
  | left _ with login_turn max_retries retry_count c (env retry_count) dir => {
    | (Return result c' dir', log) => ((result, (c', dir')), log)
    | (Continue c', log) =>
        let '(r, log') := manual_login_loop max_retries env dir c' (S retry_count) in
        (r, (log ++ log')%list) } }.
Next Obligation. lia. Qed.

(** [manual_login] *)
Definition manual_login (max_retries : nat) (env : nat -> attempt) (c : client)
    (dir : directory) : (bool * (client * directory)) * list event :=
  manual_login_loop max_retries env dir c 0.

(** ** The stand-alone script *)

(** [test_session] of [test_session.py] looks at the file [session.json]
    of two directories, [~/.instagram_downloader] and [./sessions]; both
    files are checked before the results are combined. *)
Definition test_session (home project : directory) : exc bool :=
  home_result <- check_session_file "session.json" home ;;
  project_result <- check_session_file "session.json" project ;;
  Ret (home_result || project_result).

(** The exit status of the script (lines 88-95). *)
Definition test_session_exit (home project : directory) : exc Z :=
  result <- test_session home project ;;
  Ret (if result : bool then 0%Z else 1%Z).

(** ** The session directory of a call *)

(** Where the sessions are kept: a directory that the caller names, the
    directory [sessions] of the working directory, or
    [.instagram_downloader/sessions] under the home directory. *)
Inductive location : Type :=
| Named (path : string)
| ProjectSessions
| HomeSessions.

(** Lines 50-61 of [__init__]: an argument that is not [None] is taken as
    the directory. *)
Definition init_session_dir (session_path : option string) (use_project_dir : bool)
  : location :=
  match session_path with
  | None => if use_project_dir then ProjectSessions else HomeSessions
  | Some p => Named p
  end.

(** Lines 396-402 of [list_sessions] and lines 487-493 of
    [remove_session]: an argument that counts as true is taken as the
    directory. *)
Definition class_session_dir (session_dir : option string) (use_project_dir : bool)
  : location :=
  match session_dir with
  | Some p =>
      if negb (String.eqb p "") then Named p
      else if use_project_dir then ProjectSessions else HomeSessions
  | None => if use_project_dir then ProjectSessions else HomeSessions
  end.

(** * Specification predicates *)

(** A cookie as the browser stores it: a dict whose [expires], when there
    is one, is a number. *)
Definition wf_cookie (cookie : json) : Prop :=
  exists fields, cookie = JObj fields /\
    match Py.assoc_get "expires" fields with
    | Some (JNum _) | None => True
    | Some _ => False
    end.

(** A cookie named [sessionid] whose [expires] is later than [now]. *)
Definition live_sessionid (now : Q) (cookie : json) : Prop :=
  exists fields e, cookie = JObj fields /\
    Py.assoc_get "name" fields = Some (JStr "sessionid") /\
    Py.assoc_get "expires" fields = Some (JNum e) /\
    now < e.

(** The cookie set of a session record: none when the [storage_state] key
    is absent; otherwise the [cookies] of the storage state, the empty
    list standing in for a missing [cookies] key. *)
Inductive stored_cookies : json -> option (list json) -> Prop :=
| stored_absent (top : list (string * json)) :
    Py.assoc_get "storage_state" top = None ->
    stored_cookies (JObj top) None
| stored_list (top state : list (string * json)) (cookies : list json) :
    Py.assoc_get "storage_state" top = Some (JObj state) ->
    Py.assoc_get "cookies" state = Some (JArr cookies) ->
    stored_cookies (JObj top) (Some cookies)
| stored_default (top state : list (string * json)) :
    Py.assoc_get "storage_state" top = Some (JObj state) ->
    Py.assoc_get "cookies" state = None ->
    stored_cookies (JObj top) (Some []).

(** The metadata of a record, when there is one, is a dict. *)
Definition metadata_is_dict (session_data : json) : Prop :=
  match session_data with
  | JObj top =>
      match Py.assoc_get "metadata" top with
      | Some (JObj _) | None => True
      | Some _ => False
      end
  | _ => False
  end.


(** The [username] field of the metadata of a record, [None] standing for
    a missing or null field; nothing when the record has no metadata. *)
Definition metadata_username (session_data : json) : option json :=
  match session_data with
  | JObj top =>
      match Py.assoc_get "metadata" top with
      | Some (JObj md) =>
          Some (match Py.assoc_get "username" md with Some u => u | None => JNull end)
      | _ => None
      end
  | _ => None
  end.

(** An order of precedence: the first candidate that counts as true, or
    [fallback] when none does. *)
Fixpoint first_truthy (candidates : list json) (fallback : json) : json :=
  match candidates with
  | [] => fallback
  | x :: rest => if Py.truthy x then x else first_truthy rest fallback
  end.

(** A capital letter of the ASCII alphabet. *)
Definition is_capital (c : ascii) : bool :=
  let n := nat_of_ascii c in (65 <=? n)%nat && (n <=? 90)%nat.

Fixpoint has_capital (s : string) : bool :=
  match s with
  | EmptyString => false
  | String c s' => is_capital c || has_capital s'
  end.

(** The same character, or the same letter once as a capital and once as
    a small letter, which is 32 code points further on. *)
Definition same_letter (a b : ascii) : bool :=
  Ascii.eqb a b
  || (is_capital a && (nat_of_ascii b =? nat_of_ascii a + 32)%nat)
  || (is_capital b && (nat_of_ascii a =? nat_of_ascii b + 32)%nat).

(** Two strings that differ at most in the case of their letters. *)
Fixpoint same_ignoring_case (s t : string) : bool :=
  match s, t with
  | EmptyString, EmptyString => true
  | String a s', String b t' => same_letter a b && same_ignoring_case s' t'
  | _, _ => false
  end.

(** [l] is the user name [u] in lower case: the same letters, none of
    them a capital. *)
Definition lowercased (u l : string) : Prop :=
  same_ignoring_case u l = true /\ has_capital l = false.


(** The metadata of the file [name] records [null] as its [last_used]. *)
Definition records_null_last_used (name : string) (d : directory) : Prop :=
  exists top md,
    Py.assoc_get name d = Some (Some (JObj top)) /\
    Py.assoc_get "metadata" top = Some (JObj md) /\
    Py.assoc_get "last_used" md = Some JNull.

(** The [last_used] of an entry is a number. *)
Definition numeric_last_used (e : Entry.t) : Prop :=
  exists q, Py.as_number (Entry.last_used e) = Some q.

(** The [last_used] that the metadata of a file records, when the file
    has metadata that records one, is a number. *)
Definition numeric_metadata (file : option json) : Prop :=
  match file with
  | Some (JObj top) =>
      match Py.assoc_get "metadata" top with
      | Some (JObj md) =>
          match Py.assoc_get "last_used" md with
          | Some v => Py.as_number v <> None
          | None => True
          end
      | _ => True
      end
  | _ => True
  end.

(** The number an entry is sorted by. *)
Definition sort_key (e : Entry.t) : Q :=
  match Py.as_number (Entry.last_used e) with
  | Some q => q
  | None => 0
  end.

(** The entries whose key equals [q], in the order of the list. *)
Definition with_key (q : Q) (l : list Entry.t) : list Entry.t :=
  filter (fun e => Qeq_bool (sort_key e) q) l.

(** Sorted by key, smallest first and largest first. *)
Definition ascending : list Entry.t -> Prop :=
  StronglySorted (fun a b => sort_key a <= sort_key b).

Definition descending : list Entry.t -> Prop :=
  StronglySorted (fun a b => sort_key b <= sort_key a).


(** The entry of a file that is met: [met] is the place of the file among
    the files met and its name, and the file is read at the clock reading
    of its place.  A file that cannot be read has no entry. *)
Definition entry_if_readable (dir_path : string) (stat : string -> stat_result)
    (clock : nat -> Q) (d : directory) (met : nat * string) : list Entry.t :=
  match session_entry dir_path stat (clock (fst met)) d (snd met) with
  | Ret e => [e]
  | Raise _ => []
  end.

(** The readable session entries of a directory, in the order in which
    the files are met: one for each file that can be read, the files
    being those that [glob] yields, in its order, and then
    [default_session.json]. *)
Definition readable_entries (dir_path : string) (stat : string -> stat_result)
    (clock : nat -> Q) (dir : option directory) : list Entry.t :=
  match dir with
  | Some d =>
      flat_map (entry_if_readable dir_path stat clock d)
        (combine (seq 0 (List.length (session_files d))) (session_files d))
  | None => []
  end.

(** How many entries of a list are about the file [name]. *)
Definition entries_for (name : string) (l : list Entry.t) : nat :=
  count_occ string_dec (map Entry.file_name l) name.


Definition is_init (ev : event) : bool :=
  match ev with
  | InitBrowser => true
  | _ => false
  end.

(** The number of times the browser was started: the number of attempts. *)
Definition attempts (log : list event) : nat := List.length (filter is_init log).



(** [len] is defined on the value. *)
Definition sized (j : json) : bool :=
  match j with
  | JArr _ | JObj _ | JStr _ => true
  | _ => false
  end.

(** The session path of a client is the one [__init__] gives for its
    user name. *)
Definition path_consistent (c : client) : Prop :=
  session_path c = init_session_path (username c).

(** The seconds a log spends in [time.sleep]. *)
Fixpoint paused (log : list event) : Z :=
  match log with
  | [] => 0%Z
  | Sleep seconds :: rest => (seconds + paused rest)%Z
  | _ :: rest => paused rest
  end.

(** The events of [n] attempts in which the browser does not start. *)
Fixpoint init_failed_log (n : nat) : list event :=
  match n with
  | O => []
  | S n' => InitBrowser :: Sleep 2 :: init_failed_log n'
  end.



(** ** Sample data *)

Definition sample_cookie (expires : Q) : json :=
  JObj [("name", JStr "sessionid"); ("value", JStr "abc"); ("expires", JNum expires)].

Definition sample_cookies (expires : Q) : list json :=
  [JObj [("name", JStr "csrftoken"); ("value", JStr "xyz")]; sample_cookie expires].

Definition sample_state (expires : Q) : json :=
  JObj [("cookies", JArr (sample_cookies expires)); ("origins", JArr [])].

Definition sample_metadata (name : json) (created last : Q) : json :=
  JObj [("username", name); ("created_at", JNum created); ("last_used", JNum last)].

Definition sample_record (expires : Q) (name : json) (created last : Q) : json :=
  JObj [("storage_state", sample_state expires);
        ("metadata", sample_metadata name created last)].

Definition sample_dir : directory :=
  [("alice_session.json", Some (sample_record 100 (JStr "bob") 5 6));
   ("default_session.json", Some (sample_state 100));
   ("carol_session.json", Some (sample_record 40 JNull 3 6));
   ("notes.txt", None)].

Definition sample_stat (name : string) : stat_result := mkStat 7 512.

Definition sample_logged_in : client :=
  mkClient (Some "alice") "alice_session.json" true true (JStr "alice").

Definition onetap_url : string := "https://www.instagram.com/accounts/onetap/".

Definition sample_verify : verify_obs :=
  mkVerify (Ret tt) PROFILE_URL (Ret (Some "alice")) (Ret tt) (Ret None).

(** The user logs in after ten seconds and the page goes to the
    "save your login" page, where it stays. *)
Definition attempt_leaving_login : attempt :=
  mkAttempt true (Ret tt) [(10000%Z, onetap_url)] sample_verify
            (Ret (sample_state 100)) 10 11.

(** The user logs in after ten seconds and is at the main page twenty
    seconds later. *)
Definition attempt_reaching_base : attempt :=
  mkAttempt true (Ret tt) [(10000%Z, onetap_url); (30000%Z, BASE_URL)] sample_verify
            (Ret (sample_state 100)) 10 11.


(** A directory whose only file is a default session that records no time
    of use. *)
Definition null_default_dir : directory :=
  [("default_session.json",
    Some (JObj [("storage_state", sample_state 100);
                ("metadata",
                 JObj [("username", JNull); ("created_at", JNum 1);
                       ("last_used", JNull)])]))].


(** What [list_sessions] returns for the sample directory. *)
Definition sample_listing : list Entry.t :=
  [Entry.mk (JStr unknown_username) "/sessions/default_session.json"
            "default_session.json" (JNum 7) (JNum 7) 512 false;
   Entry.mk (JStr unknown_username) "/sessions/default_session.json"
            "default_session.json" (JNum 7) (JNum 7) 512 false;
   Entry.mk (JStr "bob") "/sessions/alice_session.json" "alice_session.json"
            (JNum 5) (JNum 6) 512 true;
   Entry.mk (JStr "carol") "/sessions/carol_session.json" "carol_session.json"
            (JNum 3) (JNum 6) 512 false].

(** * Properties *)

(** ** Facts about the primitives *)

Lemma Qltb_lt (x y : Q) : Py.Qltb x y = true <-> x < y.
Proof.
  unfold Py.Qltb. rewrite negb_true_iff. split.
  - intros H. apply Qnot_le_lt. intros Hle.
    apply Qle_bool_iff in Hle. congruence.
  - intros H. destruct (Qle_bool y x) eqn:E; [|reflexivity].
    apply Qle_bool_iff in E. exfalso. exact (Qlt_not_le _ _ H E).
Qed.

Lemma is_str_true (s : string) (j : json) : Py.is_str s j = true <-> j = JStr s.
Proof.
  destruct j; simpl; try (split; [discriminate | intros H; discriminate H]).
  rewrite String.eqb_eq. split; [intros -> | intros [= ->]]; reflexivity.
Qed.

Lemma assoc_get_set_same {A : Type} (k : string) (v : A) (kvs : list (string * A)) :
  Py.assoc_get k (Py.assoc_set k v kvs) = Some v.
Proof.
  induction kvs as [|[k' v'] rest IH]; cbn.
  - rewrite String.eqb_refl. reflexivity.
  - destruct (String.eqb k k') eqn:E; cbn.
    + rewrite String.eqb_refl. reflexivity.
    + rewrite E. exact IH.
Qed.

Lemma assoc_get_set_other {A : Type} (k k0 : string) (v : A) (kvs : list (string * A)) :
  k0 <> k -> Py.assoc_get k0 (Py.assoc_set k v kvs) = Py.assoc_get k0 kvs.
Proof.
  intros Hne. apply String.eqb_neq in Hne.
  induction kvs as [|[k' v'] rest IH]; cbn.
  - rewrite Hne. reflexivity.
  - destruct (String.eqb k k') eqn:E; cbn.
    + apply String.eqb_eq in E. subst k'. rewrite Hne. reflexivity.
    + destruct (String.eqb k0 k'); [reflexivity | exact IH].
Qed.

Lemma assoc_get_filter_other {A : Type} (name other : string) (l : list (string * A)) :
  other <> name ->
  Py.assoc_get other (filter (fun f => negb (String.eqb name (fst f))) l)
  = Py.assoc_get other l.
Proof.
  intros Hne. induction l as [|[k v] rest IH]; [reflexivity|]. cbn.
  destruct (String.eqb name k) eqn:E; cbn.
  - apply String.eqb_eq in E. subst k.
    apply String.eqb_neq in Hne. rewrite Hne. exact IH.
  - destruct (String.eqb other k); [reflexivity | exact IH].
Qed.

Lemma assoc_get_filter_same {A : Type} (name : string) (l : list (string * A)) :
  Py.assoc_get name (filter (fun f => negb (String.eqb name (fst f))) l) = None.
Proof.
  induction l as [|[k v] rest IH]; [reflexivity|]. cbn.
  destruct (String.eqb name k) eqn:E; cbn; [exact IH|]. rewrite E. exact IH.
Qed.

Lemma assoc_get_In {A : Type} (name : string) (l : list (string * A)) (v : A) :
  Py.assoc_get name l = Some v -> In (name, v) l.
Proof.
  induction l as [|[k w] rest IH]; cbn; [discriminate|].
  destruct (String.eqb name k) eqn:E.
  - apply String.eqb_eq in E. intros [= ->]. subst. auto.
  - auto.
Qed.

Lemma assoc_get_In_fst {A : Type} (name : string) (l : list (string * A)) :
  Py.assoc_get name l <> None -> In name (map fst l).
Proof.
  induction l as [|[k v] rest IH]; cbn; [congruence|].
  destruct (String.eqb name k) eqn:E.
  - apply String.eqb_eq in E. auto.
  - auto.
Qed.

Lemma read_json_write_json (name : string) (j : json) (dir : directory) :
  Fs.read_json name (Fs.write_json name j dir) = Ret j.
Proof. unfold Fs.read_json, Fs.write_json. rewrite assoc_get_set_same. reflexivity. Qed.

Lemma read_json_write_json_other (name other : string) (j : json) (dir : directory) :
  other <> name ->
  Fs.read_json other (Fs.write_json name j dir) = Fs.read_json other dir.
Proof.
  intros Hne. unfold Fs.read_json, Fs.write_json.
  rewrite (assoc_get_set_other _ _ _ _ Hne). reflexivity.
Qed.

(** ** The validity check *)

Lemma any_valid_sessionid_spec (now : Q) (cookies : list json) :
  0 <= now -> Forall wf_cookie cookies ->
  exists b, any_valid_sessionid now cookies = Ret b /\
            (b = true <-> Exists (live_sessionid now) cookies).
Proof.
  intros Hnow Hwf. induction Hwf as [|cookie rest [fields [-> Hexp]] _ IH].
  - exists false. split; [reflexivity|]. split; [discriminate|].
    intros H. inversion H.
  - destruct IH as [b [Hb Hiff]]. cbn [any_valid_sessionid Py.get bind].
    destruct (Py.is_str "sessionid"
                (match Py.assoc_get "name" fields with Some v => v | None => JNull end))
      eqn:Hname.
    + apply is_str_true in Hname.
      assert (Hn : Py.assoc_get "name" fields = Some (JStr "sessionid")).
      { destruct (Py.assoc_get "name" fields); [congruence | discriminate]. }
      destruct (Py.assoc_get "expires" fields) as [[| | e | | |]|] eqn:He;
        try contradiction; cbn [Py.gt_float Py.as_number bind].
      * destruct (Py.Qltb now e) eqn:Hlt.
        -- exists true. split; [reflexivity|]. split; [|reflexivity].
           intros _. apply Exists_cons_hd. exists fields, e.
           apply Qltb_lt in Hlt. auto.
        -- exists b. split; [exact Hb|]. rewrite Hiff. split.
           ++ apply Exists_cons_tl.
           ++ intros H. inversion H as [? ? Hl|]; subst; [|assumption].
              destruct Hl as [f' [e' [Heq [_ [He' Hlt']]]]].
              injection Heq as <-. rewrite He in He'. injection He' as <-.
              apply Qltb_lt in Hlt'. congruence.
      * destruct (Py.Qltb now 0) eqn:Hlt.
        -- apply Qltb_lt in Hlt. exfalso. exact (Qlt_not_le _ _ Hlt Hnow).
        -- exists b. split; [exact Hb|]. rewrite Hiff. split.
           ++ apply Exists_cons_tl.
           ++ intros H. inversion H as [? ? Hl|]; subst; [|assumption].
              destruct Hl as [f' [e' [Heq [_ [He' _]]]]].
              injection Heq as <-. congruence.
    + exists b. split; [exact Hb|]. rewrite Hiff. split.
      * apply Exists_cons_tl.
      * intros H. inversion H as [? ? Hl|]; subst; [|assumption].
        destruct Hl as [f' [e' [Heq [Hn' _]]]].
        injection Heq as <-. rewrite Hn' in Hname.
        simpl in Hname. discriminate.
Qed.

(** The loop of [load_session] makes the same decision as the loop of
    [list_sessions], and touches the metadata when it finds the cookie. *)
Lemma load_cookies_any_valid (c : client) (session_data : json) (now t_touch : Q)
    (dir : directory) (cookies : list json) :
  load_cookies c session_data now t_touch dir cookies =
  (valid <- any_valid_sessionid now cookies ;;
   if valid : bool
   then r <- load_metadata c session_data t_touch dir ;; Ret (true, r)
   else Ret (false, (c, dir))).
Proof.
  induction cookies as [|cookie rest IH]; [reflexivity|].
  cbn [load_cookies any_valid_sessionid].
  destruct (Py.get "name" JNull cookie) as [name|]; [|reflexivity]. cbn [bind].
  destruct (Py.is_str "sessionid" name); [|exact IH].
  destruct (Py.get "expires" (JNum 0) cookie) as [expires|]; [|reflexivity]. cbn [bind].
  destruct (Py.gt_float expires now) as [[|]|]; cbn [bind]; try reflexivity.
  exact IH.
Qed.

Lemma compute_is_valid_stored (session_data : json) (stored : option (list json))
    (now : Q) :
  stored_cookies session_data stored ->
  compute_is_valid session_data now =
  match stored with
  | Some cookies => any_valid_sessionid now cookies
  | None => Ret false
  end.
Proof.
  intros H. destruct H as [top H | top state cookies H1 H2 | top state H1 H2];
    unfold compute_is_valid; cbn [Py.contains Py.getitem Py.get Py.iter bind].
  - rewrite H. reflexivity.
  - rewrite H1. cbn [Py.get bind]. rewrite H2. reflexivity.
  - rewrite H1. cbn [Py.get bind]. rewrite H2. reflexivity.
Qed.

Lemma load_metadata_returns (c : client) (session_data : json) (t_touch : Q)
    (dir : directory) :
  metadata_is_dict session_data ->
  exists c' dir', load_metadata c session_data t_touch dir = Ret (c', dir') /\
                  is_logged_in c' = is_logged_in c.
Proof.
  destruct session_data as [| | | | |top]; try contradiction.
  unfold metadata_is_dict, load_metadata. cbn [Py.contains Py.getitem bind].
  destruct (Py.assoc_get "metadata" top) as [[| | | | |md]|]; try contradiction;
    intros _; cbn; eauto.
Qed.

(** What lines 352-365 do to the client and to the file. *)
Lemma load_metadata_dict (c : client) (top md : list (string * json)) (t_touch : Q)
    (dir : directory) :
  Py.assoc_get "metadata" top = Some (JObj md) ->
  load_metadata c (JObj top) t_touch dir =
  let u := match Py.assoc_get "username" md with Some u => u | None => JNull end in
  Ret (set_current_username (first_truthy [u; opt_str_json (username c)] u) c,
       Fs.write_json (session_path c)
         (JObj (Py.assoc_set "metadata"
                  (JObj (Py.assoc_set "last_used" (JNum t_touch) md)) top)) dir).
Proof.
  intros Hmd. unfold load_metadata. cbn [Py.contains Py.getitem bind].
  rewrite Hmd. cbn [Py.get Py.setitem bind first_truthy].
  destruct (Py.assoc_get "username" md) as [u|];
    [destruct (Py.truthy u) eqn:Hu|]; cbn [negb andb Py.truthy];
    try reflexivity;
    destruct (username c) as [a|]; cbn [truthy_str opt_str_json Py.truthy];
    try reflexivity;
    destruct (negb (a =? "")%string); reflexivity.
Qed.

Lemma load_metadata_absent (c : client) (top : list (string * json)) (t_touch : Q)
    (dir : directory) :
  Py.assoc_get "metadata" top = None ->
  load_metadata c (JObj top) t_touch dir = Ret (c, dir).
Proof.
  intros Hmd. unfold load_metadata. cbn [Py.contains bind]. rewrite Hmd. reflexivity.
Qed.

(** [load_session] decides as [list_sessions] does, and on a valid
    session goes on to the metadata. *)
Lemma load_session_result_compute (c : client) (dir : directory) (now t_touch : Q)
    (session_data : json) :
  Py.assoc_get (session_path c) dir = Some (Some session_data) ->
  load_session_result c now t_touch dir =
  match compute_is_valid session_data now with
  | Ret true =>
      match load_metadata c session_data t_touch dir with
      | Ret (c', dir') => (Loaded, (set_is_logged_in true c', dir'))
      | Raise e => (ErrorValidating e, (c, dir))
      end
  | Ret false =>
      (match Py.contains "storage_state" session_data with
       | Ret false => InvalidFormat
       | _ => InvalidOrExpired
       end, (c, dir))
  | Raise e => (ErrorValidating e, (c, dir))
  end.
Proof.
  intros Hfile. unfold load_session_result, compute_is_valid, Fs.exists_, Fs.read_json.
  rewrite Hfile. cbn [negb bind].
  destruct (Py.contains "storage_state" session_data) as [[|]|]; try reflexivity.
  cbn [bind].
  destruct (Py.getitem "storage_state" session_data) as [state|]; [|reflexivity].
  cbn [bind].
  destruct (Py.get "cookies" (JArr []) state) as [cookies|]; [|reflexivity].
  cbn [bind].
  destruct (Py.iter cookies) as [items|]; [|reflexivity].
  cbn [bind]. rewrite load_cookies_any_valid.
  destruct (any_valid_sessionid now items) as [[|]|]; cbn [bind try_except];
    try reflexivity.
  destruct (load_metadata c session_data t_touch dir) as [[c' dir']|]; reflexivity.
Qed.

(** C1.  For a session record with a well-formed cookie set, the validity
    check of [list_sessions] and the result of [load_session] are true
    exactly when the [storage_state] key is there and some cookie named
    [sessionid] has an [expires] strictly later than the current time;
    when [load_session] returns true it has set [is_logged_in]. *)
Theorem session_valid_iff_live_sessionid
    (c : client) (dir : directory) (now t_touch : Q) (session_data : json)
    (stored : option (list json)) :
  Py.assoc_get (session_path c) dir = Some (Some session_data) ->
  stored_cookies session_data stored ->
  (forall cookies, stored = Some cookies -> Forall wf_cookie cookies) ->
  metadata_is_dict session_data ->
  0 <= now ->
  exists valid : bool,
    compute_is_valid session_data now = Ret valid /\
    fst (load_session c now t_touch dir) = valid /\
    (valid = true <->
     exists cookies, stored = Some cookies /\ Exists (live_sessionid now) cookies) /\
    (valid = true ->
     is_logged_in (fst (snd (load_session c now t_touch dir))) = true).
Proof.
  intros Hfile Hstored Hwf Hmd Hnow. unfold load_session.
  rewrite (load_session_result_compute _ _ _ _ _ Hfile).
  rewrite (compute_is_valid_stored _ _ now Hstored).
  destruct stored as [cookies|].
  - destruct (any_valid_sessionid_spec now cookies Hnow (Hwf _ eq_refl))
      as [b [Hb Hiff]].
    exists b. rewrite Hb. split; [reflexivity|]. destruct b.
    + destruct (load_metadata_returns c session_data t_touch dir Hmd)
        as [c' [dir' [-> _]]].
      cbn. split; [reflexivity|]. split; [|reflexivity].
      split; [|reflexivity]. intros _. exists cookies. split; [reflexivity|].
      apply Hiff. reflexivity.
    + split; [destruct (Py.contains "storage_state" session_data) as [[|]|];
              reflexivity|].
      split; [|discriminate].
      split; [discriminate|]. intros [cs [[= <-] Hex]]. apply Hiff. exact Hex.
  - exists false. split; [reflexivity|].
    split; [destruct (Py.contains "storage_state" session_data) as [[|]|];
            reflexivity|].
    split; [|discriminate]. split; [discriminate|].
    intros [cs [Hcs _]]. discriminate Hcs.
Qed.

Lemma sample_cookies_wf (expires : Q) : Forall wf_cookie (sample_cookies expires).
Proof. repeat constructor; eexists; (split; [reflexivity | exact I]). Defined.

Lemma sample_cookies_live : Exists (live_sessionid 50) (sample_cookies 100).
Proof.
  apply Exists_cons_tl, Exists_cons_hd.
  exists [("name", JStr "sessionid"); ("value", JStr "abc"); ("expires", JNum 100)], 100.
  repeat split.
Defined.

Lemma session_valid_iff_live_sessionid_witness :
  exists valid : bool,
    compute_is_valid (sample_record 100 (JStr "bob") 5 6) 50 = Ret valid /\
    fst (load_session (init (Some "Alice")) 50 51 sample_dir) = valid /\
    (valid = true <->
     exists cookies, Some (sample_cookies 100) = Some cookies /\
                     Exists (live_sessionid 50) cookies) /\
    (valid = true ->
     is_logged_in (fst (snd (load_session (init (Some "Alice")) 50 51 sample_dir))) = true).
Proof.
  apply (session_valid_iff_live_sessionid (init (Some "Alice")) sample_dir 50 51
           (sample_record 100 (JStr "bob") 5 6) (Some (sample_cookies 100))).
  - reflexivity.
  - eapply stored_list; reflexivity.
  - intros cookies [= <-]. repeat constructor; eexists; (split; [reflexivity|exact I]).
  - exact I.
  - discriminate.
Defined.

(** ** The bare session file *)




(** ** The order in which a user name is resolved *)

Lemma display_username_first_truthy (u : json) (from_name : option string) :
  display_username u from_name =
  first_truthy [u; opt_str_json from_name] (JStr unknown_username).
Proof.
  unfold display_username. cbn [first_truthy].
  destruct (Py.truthy u) eqn:Hu.
  - rewrite Hu. reflexivity.
  - destruct (Py.truthy (opt_str_json from_name)); reflexivity.
Qed.

Lemma metadata_username_beats_constructor_argument :
  username (init (Some "alice")) = Some "alice" /\
  session_path (init (Some "alice")) = "alice_session.json" /\
  Fs.read_json "alice_session.json" sample_dir = Ret (sample_record 100 (JStr "bob") 5 6) /\
  fst (load_session (init (Some "alice")) 50 51 sample_dir) = true /\
  current_username (fst (snd (load_session (init (Some "alice")) 50 51 sample_dir)))
    = JStr "bob".
Proof. repeat split. Qed.

(** C3, amended.  In [load_session] the user name of the metadata comes
    first and the argument of the constructor second; a valid record
    without metadata, or an invalid one, leaves the name as it was.  In
    [list_sessions] the user name of the metadata comes first, the token
    taken from the file name second, and a fixed placeholder last. *)
Theorem username_resolution_order
    (c : client) (dir : directory) (now t_touch : Q) (dir_path : string)
    (stat : string -> stat_result) (session_data : json) (valid : bool) :
  Py.assoc_get (session_path c) dir = Some (Some session_data) ->
  metadata_is_dict session_data ->
  compute_is_valid session_data now = Ret valid ->
  (exists e, session_entry dir_path stat now dir (session_path c) = Ret e /\
     Entry.username e =
       first_truthy
         [match metadata_username session_data with Some u => u | None => JNull end;
          opt_str_json (filename_username (session_path c))]
         (JStr unknown_username)) /\
  fst (load_session c now t_touch dir) = valid /\
  current_username (fst (snd (load_session c now t_touch dir))) =
    (if valid then
       match metadata_username session_data with
       | Some u => first_truthy [u; opt_str_json (username c)] u
       | None => current_username c
       end
     else current_username c).
Proof.
  intros Hfile Hmd Hvalid. split.
  - unfold session_entry, Fs.read_json. rewrite Hfile. cbn [bind].
    destruct session_data as [| | | | |top]; try contradiction.
    cbn [metadata_is_dict] in Hmd. cbn [metadata_username Py.contains Py.getitem bind].
    destruct (Py.assoc_get "metadata" top) as [[| | | | |md]|]; try contradiction;
      cbn [Py.get bind]; rewrite Hvalid; cbn [bind]; eexists; (split; [reflexivity|]);
      cbn [Entry.username]; apply display_username_first_truthy.
  - unfold load_session. rewrite (load_session_result_compute _ _ _ _ _ Hfile), Hvalid.
    destruct valid;
      [|destruct (Py.contains "storage_state" session_data) as [[|]|];
        split; reflexivity].
    destruct session_data as [| | | | |top]; try contradiction.
    cbn [metadata_is_dict] in Hmd. cbn [metadata_username].
    destruct (Py.assoc_get "metadata" top) as [[| | | | |md]|] eqn:Htop;
      try contradiction.
    + rewrite (load_metadata_dict _ _ _ _ _ Htop). split; reflexivity.
    + rewrite (load_metadata_absent _ _ _ _ Htop). split; reflexivity.
Qed.

Lemma username_resolution_order_witness :
  (exists e, session_entry "/sessions" sample_stat 50 sample_dir "alice_session.json" = Ret e /\
     Entry.username e = JStr "bob") /\
  fst (load_session (init (Some "Alice")) 50 51 sample_dir) = true /\
  current_username (fst (snd (load_session (init (Some "Alice")) 50 51 sample_dir)))
    = JStr "bob".
Proof.
  exact (username_resolution_order (init (Some "Alice")) sample_dir 50 51 "/sessions"
           sample_stat (sample_record 100 (JStr "bob") 5 6) true eq_refl I eq_refl).
Defined.

(** ** Writing a session and reading it back *)

(** C4.  A record written by [_save_session] and read back by
    [load_session] while its [sessionid] cookie is live comes back with the
    same storage state, user name and [created_at]; its [last_used] is the
    clock reading of the load, which is not earlier than the one written. *)
Theorem save_load_round_trip
    (c loader : client) (dir : directory) (state : list (string * json))
    (cookies : list json) (t_created t_last_used now t_touch : Q) :
  is_logged_in c = true ->
  page c = true ->
  session_path loader = session_path c ->
  Py.assoc_get "cookies" state = Some (JArr cookies) ->
  Forall wf_cookie cookies ->
  Exists (live_sessionid now) cookies ->
  0 <= now ->
  t_last_used <= t_touch ->
  let metadata (last : Q) :=
    JObj [("username", current_username c); ("created_at", JNum t_created);
          ("last_used", JNum last)] in
  let record (last : Q) :=
    JObj [("storage_state", JObj state); ("metadata", metadata last)] in
  let written := _save_session c (Ret (JObj state)) t_created t_last_used dir in
  let reloaded := load_session loader now t_touch written in
  Fs.read_json (session_path c) written = Ret (record t_last_used) /\
  fst reloaded = true /\
  Fs.read_json (session_path c) (snd (snd reloaded)) = Ret (record t_touch) /\
  (forall other, other <> session_path c ->
     Fs.read_json other (snd (snd reloaded)) = Fs.read_json other dir) /\
  t_last_used <= t_touch.
Proof.
  intros Hlogged Hpage Hpath Hcookies Hwf Hlive Hnow Hclock metadata record written reloaded.
  assert (Hwritten : written = Fs.write_json (session_path c) (record t_last_used) dir).
  { unfold written, _save_session. rewrite Hlogged, Hpage. reflexivity. }
  assert (Hfile : Py.assoc_get (session_path loader) written
                  = Some (Some (record t_last_used))).
  { rewrite Hpath, Hwritten. unfold Fs.write_json. apply assoc_get_set_same. }
  assert (Hvalid : compute_is_valid (record t_last_used) now = Ret true).
  { rewrite (compute_is_valid_stored _ (Some cookies));
      [|eapply stored_list; [reflexivity|exact Hcookies]].
    destruct (any_valid_sessionid_spec now cookies Hnow Hwf) as [b [Hb Hiff]].
    rewrite Hb. f_equal. apply Hiff. exact Hlive. }
  assert (Hreloaded : reloaded =
            (true, (set_is_logged_in true
                      (set_current_username
                         (first_truthy [current_username c; opt_str_json (username loader)]
                            (current_username c)) loader),
                    Fs.write_json (session_path c) (record t_touch) written))).
  { unfold reloaded, load_session.
    rewrite (load_session_result_compute _ _ _ _ _ Hfile), Hvalid.
    unfold record, metadata.
    erewrite load_metadata_dict by reflexivity.
    rewrite Hpath. reflexivity. }
  split; [|split; [|split; [|split]]].
  - rewrite Hwritten. apply read_json_write_json.
  - rewrite Hreloaded. reflexivity.
  - rewrite Hreloaded. apply read_json_write_json.
  - intros other Hne. rewrite Hreloaded. cbn [snd].
    rewrite (read_json_write_json_other _ _ _ _ Hne), Hwritten.
    apply read_json_write_json_other. exact Hne.
  - exact Hclock.
Qed.

Lemma save_load_round_trip_witness :
  let written :=
    _save_session sample_logged_in (Ret (sample_state 100)) 10 11 sample_dir in
  let reloaded := load_session (init (Some "Alice")) 50 51 written in
  Fs.read_json "alice_session.json" written
    = Ret (sample_record 100 (JStr "alice") 10 11) /\
  fst reloaded = true /\
  Fs.read_json "alice_session.json" (snd (snd reloaded))
    = Ret (sample_record 100 (JStr "alice") 10 51) /\
  (forall other, other <> "alice_session.json" ->
     Fs.read_json other (snd (snd reloaded)) = Fs.read_json other sample_dir) /\
  11 <= 51.
Proof.
  refine (save_load_round_trip sample_logged_in (init (Some "Alice")) sample_dir
            [("cookies", JArr (sample_cookies 100)); ("origins", JArr [])]
            (sample_cookies 100) 10 11 50 51
            eq_refl eq_refl eq_refl eq_refl (sample_cookies_wf 100) sample_cookies_live _ _);
    discriminate.
Defined.

(** ** Lower case *)

Lemma lower_ascii_idempotent (c : ascii) :
  Str.lower_ascii (Str.lower_ascii c) = Str.lower_ascii c.
Proof. destruct c as [[] [] [] [] [] [] [] []]; reflexivity. Qed.

Lemma lower_idempotent (s : string) : Str.lower (Str.lower s) = Str.lower s.
Proof.
  induction s as [|c s IH]; [reflexivity|]. cbn [Str.lower].
  rewrite lower_ascii_idempotent, IH. reflexivity.
Qed.

Lemma lower_eqb_empty (s : string) :
  String.eqb (Str.lower s) "" = String.eqb s "".
Proof. destruct s; reflexivity. Qed.

Lemma lower_ascii_capital (c : ascii) :
  Str.lower_ascii c =
  if is_capital c then ascii_of_nat (nat_of_ascii c + 32) else c.
Proof. reflexivity. Qed.

Lemma lower_ascii_lowercased (c : ascii) :
  same_letter c (Str.lower_ascii c) = true /\
  is_capital (Str.lower_ascii c) = false.
Proof. destruct c as [[] [] [] [] [] [] [] []]; split; reflexivity. Qed.

(** [lower] gives the string in lower case. *)
Lemma lower_lowercased (u : string) : lowercased u (Str.lower u).
Proof.
  unfold lowercased. induction u as [|c u [IH1 IH2]]; [split; reflexivity|].
  cbn [Str.lower same_ignoring_case has_capital].
  destruct (lower_ascii_lowercased c) as [-> ->]. rewrite IH1, IH2.
  split; reflexivity.
Qed.

(** A string without capitals is its own lower case. *)
Lemma lower_without_capital (u : string) : has_capital u = false -> Str.lower u = u.
Proof.
  induction u as [|c u IH]; [reflexivity|]. cbn [has_capital Str.lower].
  intros H. apply orb_false_iff in H as [Hc Hu].
  rewrite lower_ascii_capital, Hc, (IH Hu). reflexivity.
Qed.

(** The small letter of a capital is not a capital. *)
Lemma small_letter_of_capital (a b : ascii) :
  is_capital a = true -> nat_of_ascii b = (nat_of_ascii a + 32)%nat ->
  Str.lower_ascii a = b /\ Str.lower_ascii b = b.
Proof.
  intros Ha Hb. rewrite !lower_ascii_capital, Ha, <- Hb, ascii_nat_embedding.
  split; [reflexivity|].
  unfold is_capital in Ha |- *. cbv zeta in Ha |- *. rewrite Hb.
  apply andb_true_iff in Ha as [Hlo Hhi].
  apply Nat.leb_le in Hlo. apply Nat.leb_le in Hhi.
  replace (nat_of_ascii a + 32 <=? 90)%nat with false
    by (symmetry; apply Nat.leb_gt; lia).
  rewrite andb_false_r. reflexivity.
Qed.

Lemma same_letter_lower (a b : ascii) :
  same_letter a b = true -> Str.lower_ascii a = Str.lower_ascii b.
Proof.
  unfold same_letter. intros H.
  apply orb_true_iff in H as [H | H]; [apply orb_true_iff in H as [H | H]|].
  - apply Ascii.eqb_eq in H. subst b. reflexivity.
  - apply andb_true_iff in H as [Ha Hb]. apply Nat.eqb_eq in Hb.
    destruct (small_letter_of_capital a b Ha Hb) as [-> ->]. reflexivity.
  - apply andb_true_iff in H as [Hb Ha]. apply Nat.eqb_eq in Ha.
    destruct (small_letter_of_capital b a Hb Ha) as [-> ->]. reflexivity.
Qed.

(** Two strings that differ only in the case of their letters have the
    same lower case. *)
Lemma same_ignoring_case_lower (u v : string) :
  same_ignoring_case u v = true -> Str.lower u = Str.lower v.
Proof.
  revert v. induction u as [|a u IH]; intros [|b v]; cbn [same_ignoring_case];
    try discriminate; [reflexivity|].
  intros H. apply andb_true_iff in H as [Hab Huv]. cbn [Str.lower].
  rewrite (same_letter_lower a b Hab), (IH v Huv). reflexivity.
Qed.

(** ** Removing a session *)

Lemma remove_session_file_name (username : string) :
  remove_session_file username = Str.lower username ++ "_session.json".
Proof.
  unfold remove_session_file.
  destruct (String.eqb (Str.lower username) "default") eqn:E; [|reflexivity].
  apply String.eqb_eq in E. rewrite E. reflexivity.
Qed.



Example remove_session_absent_user :
  remove_session "Bob" (Some sample_dir) = Ret (false, Some sample_dir).
Proof. reflexivity. Qed.

(** C7.  When the session file of an ASCII user name is there,
    [remove_session] returns true and unlinks the file named after the
    user name in lower case, [default_session.json] for the name
    [default]; every other file keeps its place and its content. *)
Theorem remove_session_deletes_exactly (username : string) (d : directory) :
  Str.isascii username = true ->
  Fs.path_exists (remove_session_file username) d = Ret true ->
  let target := Str.lower username ++ "_session.json" in
  exists d',
    remove_session username (Some d) = Ret (true, Some d') /\
    lowercased username (Str.lower username) /\
    (Str.lower username = "default" -> target = "default_session.json") /\
    Fs.exists_ target d' = false /\
    d' = filter (fun f => negb (String.eqb target (fst f))) d /\
    (forall other, other <> target -> Py.assoc_get other d' = Py.assoc_get other d).
Proof.
  intros _ H target.
  exists (filter (fun f => negb (String.eqb target (fst f))) d).
  assert (Hex : Fs.exists_ (remove_session_file username) d = true).
  { unfold Fs.path_exists in H.
    destruct (Fs.NAME_MAX <? String.length (remove_session_file username))%nat;
      [discriminate | injection H as H; exact H]. }
  unfold remove_session, Fs.unlink. rewrite H. cbn [bind negb].
  rewrite Hex. cbn [negb try_except bind].
  rewrite remove_session_file_name. fold target.
  split; [reflexivity|]. split; [apply lower_lowercased|].
  split; [intros E; unfold target; rewrite E; reflexivity|].
  split; [unfold Fs.exists_; rewrite assoc_get_filter_same; reflexivity|].
  split; [reflexivity|]. intros other Hne. apply assoc_get_filter_other. exact Hne.
Qed.

Lemma remove_session_deletes_exactly_witness :
  exists d',
    remove_session "ALICE" (Some sample_dir) = Ret (true, Some d') /\
    lowercased "ALICE" "alice" /\
    ("alice" = "default" -> "alice_session.json" = "default_session.json") /\
    Fs.exists_ "alice_session.json" d' = false /\
    d' = filter (fun f => negb (String.eqb "alice_session.json" (fst f))) sample_dir /\
    (forall other, other <> "alice_session.json" ->
       Py.assoc_get other d' = Py.assoc_get other sample_dir).
Proof.
  exact (remove_session_deletes_exactly "ALICE" sample_dir eq_refl eq_refl).
Defined.

(** ** Sorting by [last_used] *)

Lemma key_lt_numeric (a b : Entry.t) :
  numeric_last_used a -> numeric_last_used b ->
  key_lt (Entry.last_used a) (Entry.last_used b)
  = Ret (Py.Qltb (sort_key a) (sort_key b)).
Proof.
  intros [x Hx] [y Hy]. unfold key_lt, sort_key. rewrite Hx, Hy. reflexivity.
Qed.

Lemma with_key_cons (q : Q) (x : Entry.t) (l : list Entry.t) :
  with_key q (x :: l) =
  if Qeq_bool (sort_key x) q then x :: with_key q l else with_key q l.
Proof. reflexivity. Qed.

(** Two entries, one of a strictly smaller key than the other, do not
    both have the key [q]. *)
Lemma with_key_swap (q : Q) (x y : Entry.t) (l : list Entry.t) :
  sort_key y < sort_key x ->
  with_key q (y :: x :: l) = with_key q (x :: y :: l).
Proof.
  intros Hlt. rewrite !with_key_cons.
  destruct (Qeq_bool (sort_key y) q) eqn:Ey; [|reflexivity].
  destruct (Qeq_bool (sort_key x) q) eqn:Ex; [|reflexivity].
  apply Qeq_bool_iff in Ey, Ex. exfalso.
  rewrite Ey, Ex in Hlt. exact (Qlt_irrefl _ Hlt).
Qed.

Lemma insert_by_last_used_numeric (x : Entry.t) (l : list Entry.t) :
  numeric_last_used x -> Forall numeric_last_used l ->
  exists r,
    insert_by_last_used x l = Ret r /\
    Permutation (x :: l) r /\
    (ascending l -> ascending r) /\
    (forall q, with_key q r = with_key q (x :: l)).
Proof.
  intros Hx Hl. induction Hl as [|y l Hy Hl IH].
  - exists [x]. repeat split; auto. intros _. repeat constructor.
  - cbn [insert_by_last_used]. rewrite (key_lt_numeric y x Hy Hx). cbn [bind].
    destruct (Py.Qltb (sort_key y) (sort_key x)) eqn:Hlt.
    + destruct IH as [r [Hr [Hperm [Hasc Hkeys]]]]. rewrite Hr. cbn [bind].
      apply Qltb_lt in Hlt.
      exists (y :: r). split; [reflexivity|]. split; [|split].
      * rewrite perm_swap. apply perm_skip. exact Hperm.
      * intros Hsorted. apply StronglySorted_inv in Hsorted as [Hs Hall].
        constructor; [exact (Hasc Hs)|].
        apply (Permutation_Forall Hperm). constructor; [|exact Hall].
        apply Qlt_le_weak. exact Hlt.
      * intros q. rewrite (with_key_cons q y r), Hkeys, <- (with_key_cons q y (x :: l)).
        apply with_key_swap. exact Hlt.
    + exists (x :: y :: l). split; [reflexivity|]. split; [reflexivity|].
      split; [|reflexivity]. intros Hsorted.
      assert (Hle : sort_key x <= sort_key y).
      { apply Qnot_lt_le. intros H. apply Qltb_lt in H. congruence. }
      constructor; [exact Hsorted|]. constructor; [exact Hle|].
      apply StronglySorted_inv in Hsorted as [_ Hall].
      revert Hall. apply Forall_impl. intros z Hz. exact (Qle_trans _ _ _ Hle Hz).
Qed.

Lemma sort_by_last_used_numeric (l : list Entry.t) :
  Forall numeric_last_used l ->
  exists s,
    sort_by_last_used l = Ret s /\
    Permutation l s /\
    ascending s /\
    (forall q, with_key q s = with_key q l).
Proof.
  intros Hl. induction Hl as [|x l Hx Hl IH].
  - exists []. repeat split; auto. constructor.
  - destruct IH as [s [Hs [Hperm [Hasc Hkeys]]]].
    cbn [sort_by_last_used]. rewrite Hs. cbn [bind].
    destruct (insert_by_last_used_numeric x s Hx (Permutation_Forall Hperm Hl))
      as [r [Hr [Hperm' [Hasc' Hkeys']]]].
    exists r. split; [exact Hr|]. split; [|split].
    + rewrite <- Hperm'. apply perm_skip. exact Hperm.
    + exact (Hasc' Hasc).
    + intros q. rewrite Hkeys', !with_key_cons, Hkeys. reflexivity.
Qed.

Lemma descending_snoc (l : list Entry.t) (x : Entry.t) :
  descending l -> Forall (fun y => sort_key x <= sort_key y) l ->
  descending (l ++ [x]).
Proof.
  intros Hl Hx. induction Hl as [|y l Hl IH Hy]; cbn.
  - repeat constructor.
  - apply Forall_cons_iff in Hx as [Hxy Hx]. constructor; [exact (IH Hx)|].
    apply Forall_app. split; [exact Hy|]. constructor; [exact Hxy | constructor].
Qed.

Lemma ascending_rev (l : list Entry.t) : ascending l -> descending (rev l).
Proof.
  intros Hl. induction Hl as [|x l Hl IH Hx]; cbn; [constructor|].
  apply descending_snoc; [exact IH|]. apply Forall_rev. exact Hx.
Qed.

Lemma with_key_rev (q : Q) (l : list Entry.t) : with_key q (rev l) = rev (with_key q l).
Proof.
  unfold with_key. induction l as [|x l IH]; [reflexivity|]. cbn.
  rewrite filter_app, IH. cbn. destruct (Qeq_bool (sort_key x) q); cbn.
  - reflexivity.
  - rewrite app_nil_r. reflexivity.
Qed.

Lemma sorted_reverse_numeric (l : list Entry.t) :
  Forall numeric_last_used l ->
  exists s,
    sorted_reverse l = Ret s /\
    Permutation l s /\
    descending s /\
    (forall q, with_key q s = with_key q l).
Proof.
  intros Hl.
  destruct (sort_by_last_used_numeric (rev l)) as [s [Hs [Hperm [Hasc Hkeys]]]].
  { apply Forall_rev. exact Hl. }
  exists (rev s). unfold sorted_reverse. rewrite Hs. cbn [bind].
  split; [reflexivity|]. split; [|split].
  - rewrite <- (Permutation_rev s), <- Hperm. apply Permutation_rev.
  - apply ascending_rev. exact Hasc.
  - intros q. rewrite with_key_rev, Hkeys, with_key_rev. apply rev_involutive.
Qed.

Lemma insert_by_last_used_permutation (x : Entry.t) (l r : list Entry.t) :
  insert_by_last_used x l = Ret r -> Permutation (x :: l) r.
Proof.
  revert r. induction l as [|y l IH]; intros r; cbn [insert_by_last_used].
  - intros [= <-]. reflexivity.
  - destruct (key_lt (Entry.last_used y) (Entry.last_used x)) as [[|]|];
      cbn [bind]; [| intros [= <-]; reflexivity | discriminate].
    destruct (insert_by_last_used x l) as [r'|]; [|discriminate]. cbn [bind].
    intros [= <-]. rewrite perm_swap. apply perm_skip. apply IH. reflexivity.
Qed.

Lemma sort_by_last_used_permutation (l s : list Entry.t) :
  sort_by_last_used l = Ret s -> Permutation l s.
Proof.
  revert s. induction l as [|x l IH]; intros s; cbn [sort_by_last_used].
  - intros [= <-]. reflexivity.
  - destruct (sort_by_last_used l) as [s'|]; [|discriminate]. cbn [bind].
    intros H. apply insert_by_last_used_permutation in H.
    rewrite <- H. apply perm_skip. apply IH. reflexivity.
Qed.

(** Whatever the keys, [sorted] returns the list it was given, in some
    order, when it returns. *)
Lemma sorted_reverse_permutation (l s : list Entry.t) :
  sorted_reverse l = Ret s -> Permutation l s.
Proof.
  unfold sorted_reverse.
  destruct (sort_by_last_used (rev l)) as [s'|] eqn:Hs; [|discriminate].
  cbn [bind]. intros [= <-]. apply sort_by_last_used_permutation in Hs.
  rewrite <- (Permutation_rev s'), <- Hs. apply Permutation_rev.
Qed.

(** [None] compares with nothing. *)
Lemma key_lt_null (k : json) :
  key_lt JNull k = Raise TypeError /\ key_lt k JNull = Raise TypeError.
Proof. destruct k as [| [|] | | | |]; split; reflexivity. Qed.

(** A sort of two entries or more compares every entry with another
    one: a key that is [None] stops it. *)
Lemma sort_by_last_used_null (l : list Entry.t) :
  (2 <= List.length l)%nat ->
  (exists x, In x l /\ Entry.last_used x = JNull) ->
  exists e, sort_by_last_used l = Raise e.
Proof.
  induction l as [|a l IH]; cbn [List.length]; [lia|].
  intros Hlen [x [Hin Hx]]. cbn [sort_by_last_used].
  destruct (sort_by_last_used l) as [s|e] eqn:Hs; cbn [bind]; [|eauto].
  pose proof (sort_by_last_used_permutation l s Hs) as Hperm.
  destruct s as [|y s].
  - apply Permutation_sym, Permutation_nil in Hperm. subst l. cbn in Hlen. lia.
  - cbn [insert_by_last_used]. destruct Hin as [<- | Hin].
    + rewrite Hx, (proj2 (key_lt_null _)). cbn [bind]. eauto.
    + destruct l as [|b [|b' l']]; [destruct Hin| |].
      * destruct Hin as [<- | []]. cbn in Hs. injection Hs as <- <-.
        rewrite Hx, (proj1 (key_lt_null _)). cbn [bind]. eauto.
      * exfalso. destruct IH as [e He];
          [cbn [List.length]; lia | exists x; split; [exact Hin | exact Hx] |].
        congruence.
Qed.

Lemma sorted_reverse_null (l : list Entry.t) :
  (2 <= List.length l)%nat ->
  (exists x, In x l /\ Entry.last_used x = JNull) ->
  exists e, sorted_reverse l = Raise e.
Proof.
  intros Hlen [x [Hin Hx]]. unfold sorted_reverse.
  destruct (sort_by_last_used_null (rev l)) as [e He].
  - rewrite length_rev. exact Hlen.
  - exists x. split; [apply in_rev in Hin; exact Hin | exact Hx].
  - rewrite He. cbn [bind]. eauto.
Qed.

(** ** The list of sessions *)

Lemma entries_for_snoc (name : string) (l : list Entry.t) (e : Entry.t) :
  entries_for name (l ++ [e]) =
  (entries_for name l + if string_dec (Entry.file_name e) name then 1 else 0)%nat.
Proof.
  unfold entries_for. rewrite map_app, count_occ_app. cbn.
  destruct (string_dec (Entry.file_name e) name); reflexivity.
Qed.

Lemma count_occ_filter_NoDup (p : string -> bool) (l : list string) (name : string) :
  NoDup l -> In name l -> p name = true ->
  count_occ string_dec (filter p l) name = 1%nat.
Proof.
  intros Hnd Hin Hp.
  assert (Hnd' : NoDup (filter p l)) by (apply NoDup_filter; exact Hnd).
  assert (Hin' : In name (filter p l)) by (apply filter_In; auto).
  pose proof (proj1 (NoDup_count_occ string_dec (filter p l)) Hnd' name) as Hle.
  pose proof (proj1 (count_occ_In string_dec (filter p l) name) Hin') as Hge.
  lia.
Qed.

Lemma any_valid_sessionid_returns (now : Q) (cookies : list json) :
  Forall wf_cookie cookies -> exists b, any_valid_sessionid now cookies = Ret b.
Proof.
  intros Hwf. induction Hwf as [|cookie rest [fields [-> Hexp]] _ [b IH]];
    cbn [any_valid_sessionid Py.get bind]; [eauto|].
  destruct (Py.is_str "sessionid" _); [|eauto].
  destruct (Py.assoc_get "expires" fields) as [[| | e | | |]|]; try contradiction;
    cbn [Py.gt_float Py.as_number bind].
  - destruct (Py.Qltb now e); eauto.
  - destruct (Py.Qltb now 0); eauto.
Qed.

Section ListSessions.

(** The path of the session directory, what [stat] reports for its files
    and the readings of the clock are the same throughout. *)
Variables (dir_path : string) (stat : string -> stat_result) (clock : nat -> Q).

(** A file that is not there cannot be read. *)
Lemma session_entry_missing (now : Q) (dir : directory) (name : string) :
  Fs.exists_ name dir = false ->
  session_entry dir_path stat now dir name = Raise OSError.
Proof.
  unfold Fs.exists_, session_entry, Fs.read_json.
  destruct (Py.assoc_get name dir); [discriminate | reflexivity].
Qed.

(** The loop of [list_sessions] adds, to the entries it holds, the entry
    of each file that can be read, in the order of the files. *)
Lemma collect_sessions_flat_map (dir : directory) (files : list string) :
  forall (i : nat) (sessions : list Entry.t),
    collect_sessions dir_path stat clock dir i files sessions =
    (sessions ++
     flat_map (entry_if_readable dir_path stat clock dir)
       (combine (seq i (List.length files)) files))%list.
Proof.
  induction files as [|f rest IH]; intros i sessions.
  - cbn. rewrite app_nil_r. reflexivity.
  - cbn [collect_sessions List.length seq combine flat_map]. rewrite IH.
    unfold entry_if_readable at 2. cbn [fst snd].
    destruct (Fs.exists_ f dir) eqn:Hex; cbn [negb].
    + destruct (session_entry dir_path stat (clock i) dir f) as [e|];
        cbn [bind try_except]; [|reflexivity].
      rewrite <- app_assoc. reflexivity.
    + rewrite (session_entry_missing _ _ _ Hex). reflexivity.
Qed.

(** What the loop of [list_sessions] has gathered when it ends is the
    list of the readable session entries. *)
Lemma readable_entries_gathered (d : directory) :
  readable_entries dir_path stat clock (Some d) =
  collect_sessions dir_path stat clock d 0 (session_files d) [].
Proof. rewrite collect_sessions_flat_map. reflexivity. Qed.

(** A file with a numeric [last_used], or with none, gives an entry with
    a numeric [last_used]. *)
Lemma session_entry_numeric (now : Q) (dir : directory) (name : string)
    (file : option json) (e : Entry.t) :
  Py.assoc_get name dir = Some file -> numeric_metadata file ->
  session_entry dir_path stat now dir name = Ret e ->
  numeric_last_used e.
Proof.
  intros Hfile Hnum. unfold session_entry, Fs.read_json. rewrite Hfile.
  destruct file as [sd|]; [|discriminate]. cbn [bind].
  destruct (Py.contains "metadata" sd) as [[|]|] eqn:Hhas; [| |discriminate];
    cbn [bind].
  - destruct sd as [| | | | |top]; try discriminate. cbn [Py.getitem].
    cbn [numeric_metadata] in Hnum.
    destruct (Py.assoc_get "metadata" top) as [[| | | | |md]|]; try discriminate.
    cbn [Py.get bind].
    destruct (compute_is_valid (JObj top) now) as [v|]; [|discriminate].
    cbn [bind]. intros [= <-]. unfold numeric_last_used. cbn [Entry.last_used].
    destruct (Py.assoc_get "last_used" md) as [lu|].
    + destruct (Py.as_number lu) as [q|]; [eauto | contradiction].
    + eexists. reflexivity.
  - destruct (compute_is_valid sd now) as [v|]; [|discriminate].
    cbn [bind]. intros [= <-]. eexists. reflexivity.
Qed.

Lemma collect_sessions_numeric (dir : directory) :
  Forall (fun f => numeric_metadata (snd f)) dir ->
  forall (files : list string) (i : nat) (sessions : list Entry.t),
    Forall numeric_last_used sessions ->
    Forall numeric_last_used (collect_sessions dir_path stat clock dir i files sessions).
Proof.
  intros Hdir files. induction files as [|f rest IH]; intros i sessions Hs;
    [exact Hs|].
  cbn [collect_sessions]. apply IH.
  destruct (Fs.exists_ f dir); cbn [negb]; [|exact Hs].
  destruct (session_entry dir_path stat (clock i) dir f) as [e|] eqn:He;
    cbn [bind try_except]; [|exact Hs].
  apply Forall_app. split; [exact Hs|]. constructor; [|constructor].
  destruct (Py.assoc_get f dir) as [file|] eqn:Hfile.
  - eapply session_entry_numeric; [exact Hfile | | exact He].
    apply assoc_get_In in Hfile.
    exact (proj1 (Forall_forall _ _) Hdir _ Hfile).
  - unfold session_entry, Fs.read_json in He. rewrite Hfile in He. discriminate.
Qed.

(** The entries of a directory whose files record numbers as [last_used]
    can be sorted. *)
Lemma readable_entries_numeric (dir : option directory) :
  match dir with
  | Some d => Forall (fun f => numeric_metadata (snd f)) d
  | None => True
  end ->
  Forall numeric_last_used (readable_entries dir_path stat clock dir).
Proof.
  destruct dir as [d|]; [|constructor].
  intros Hd. rewrite readable_entries_gathered.
  apply collect_sessions_numeric; [exact Hd | constructor].
Qed.

(** An entry is about the file it was read from, and that file exists. *)
Lemma session_entry_file_name (now : Q) (dir : directory) (name : string)
    (e : Entry.t) :
  session_entry dir_path stat now dir name = Ret e ->
  Entry.file_name e = name /\ Fs.exists_ name dir = true.
Proof.
  unfold session_entry, Fs.read_json, Fs.exists_.
  destruct (Py.assoc_get name dir) as [[sd|]|]; [|discriminate..]. cbn [bind].
  destruct (Py.contains "metadata" sd) as [has|]; [|discriminate]. cbn [bind].
  match goal with
  | |- context [bind ?f _] => destruct f as [[mu [ca lu]]|]; [|discriminate]
  end.
  cbn [bind].
  destruct (compute_is_valid sd now) as [v|]; [|discriminate]. cbn [bind].
  intros [= <-]. split; reflexivity.
Qed.


(** Every readable entry is the entry of one of the files met, as read
    at one of the readings of the clock. *)
Lemma readable_entries_In (d : directory) (e : Entry.t) :
  In e (readable_entries dir_path stat clock (Some d)) ->
  exists i, In (Entry.file_name e) (session_files d) /\
            session_entry dir_path stat (clock i) d (Entry.file_name e) = Ret e.
Proof.
  cbn [readable_entries]. intros H.
  apply in_flat_map in H as [[i f] [Hin He]].
  unfold entry_if_readable in He. cbn [fst snd] in He.
  destruct (session_entry dir_path stat (clock i) d f) as [e'|] eqn:Hs;
    [|destruct He].
  destruct He as [<- | []].
  destruct (session_entry_file_name _ _ _ _ Hs) as [-> _].
  exists i. split; [|exact Hs]. apply in_combine_r in Hin. exact Hin.
Qed.

(** Each time the loop meets a readable file [name] it adds one entry
    for it, and it adds entries for [name] at no other time. *)
Lemma collect_sessions_entries_for (dir : directory) (name : string) :
  (forall now, exists e, session_entry dir_path stat now dir name = Ret e) ->
  forall (files : list string) (i : nat) (sessions : list Entry.t),
    entries_for name (collect_sessions dir_path stat clock dir i files sessions)
    = (entries_for name sessions + count_occ string_dec files name)%nat.
Proof.
  intros Hreadable files. induction files as [|f rest IH]; intros i sessions.
  - cbn [collect_sessions count_occ]. lia.
  - cbn [collect_sessions]. rewrite IH. cbn [count_occ].
    destruct (string_dec f name) as [->|Hne].
    + destruct (Hreadable (clock i)) as [e He].
      destruct (session_entry_file_name _ _ _ _ He) as [Hname ->].
      rewrite He. cbn [negb bind try_except].
      rewrite entries_for_snoc, Hname.
      destruct (string_dec name name); [lia | contradiction].
    + destruct (Fs.exists_ f dir); cbn [negb]; [|reflexivity].
      destruct (session_entry dir_path stat (clock i) dir f) as [e|] eqn:He;
        cbn [bind try_except]; [|reflexivity].
      destruct (session_entry_file_name _ _ _ _ He) as [Hname _].
      rewrite entries_for_snoc, Hname.
      destruct (string_dec f name); [contradiction | lia].
Qed.


(** The entry of a file whose metadata records [null] as [last_used] has
    [None] as its [last_used]. *)
Lemma session_entry_null_last_used (now : Q) (d : directory) (name : string)
    (e : Entry.t) :
  records_null_last_used name d ->
  session_entry dir_path stat now d name = Ret e ->
  Entry.last_used e = JNull.
Proof.
  intros (top & md & Hfile & Hmd & Hlu). unfold session_entry, Fs.read_json.
  rewrite Hfile. cbn [bind Py.contains Py.getitem]. rewrite Hmd.
  cbn [bind Py.get]. rewrite Hlu.
  destruct (compute_is_valid (JObj top) now) as [v|]; [|discriminate].
  cbn [bind]. intros [= <-]. reflexivity.
Qed.


(** C10.  When the session directory holds a readable file named
    [default_session.json], the files that [list_sessions] meets hold
    the name twice, [glob] yielding it once and line 409 adding it once
    more, and so do the readable session entries.  Whenever
    [list_sessions] returns, its list has the two entries; it returns
    when the files record numbers as [last_used], and it raises when the
    default file records [null], which the two entries make [sorted]
    compare. *)
Theorem list_sessions_lists_default_twice (d : directory) :
  NoDup (map fst d) ->
  (forall now, exists e,
     session_entry dir_path stat now d "default_session.json" = Ret e) ->
  count_occ string_dec (Fs.glob_session_files d) "default_session.json" = 1%nat /\
  count_occ string_dec (session_files d) "default_session.json" = 2%nat /\
  entries_for "default_session.json"
    (readable_entries dir_path stat clock (Some d)) = 2%nat /\
  (forall sessions,
     list_sessions dir_path stat clock (Some d) = Ret sessions ->
     entries_for "default_session.json" sessions = 2%nat) /\
  (Forall (fun f => numeric_metadata (snd f)) d ->
   exists sessions,
     list_sessions dir_path stat clock (Some d) = Ret sessions /\
     entries_for "default_session.json" sessions = 2%nat) /\
  (records_null_last_used "default_session.json" d ->
   exists e, list_sessions dir_path stat clock (Some d) = Raise e).
Proof.
  intros Hnd Hreadable.
  assert (Hglob : count_occ string_dec (Fs.glob_session_files d)
                    "default_session.json" = 1%nat).
  { apply count_occ_filter_NoDup; [exact Hnd| |reflexivity].
    destruct (Hreadable 0) as [e He].
    apply session_entry_file_name in He as [_ He].
    apply assoc_get_In_fst. unfold Fs.exists_ in He.
    destruct (Py.assoc_get "default_session.json" d); [discriminate | discriminate He]. }
  assert (Hfiles : count_occ string_dec (session_files d)
                     "default_session.json" = 2%nat).
  { unfold session_files. rewrite count_occ_app, Hglob. reflexivity. }
  assert (Htwice : entries_for "default_session.json"
                     (readable_entries dir_path stat clock (Some d)) = 2%nat).
  { rewrite readable_entries_gathered.
    rewrite (collect_sessions_entries_for _ _ Hreadable), Hfiles. reflexivity. }
  assert (Hreturned : forall sessions,
             list_sessions dir_path stat clock (Some d) = Ret sessions ->
             entries_for "default_session.json" sessions = 2%nat).
  { intros sessions Hret. cbn [list_sessions] in Hret.
    rewrite <- readable_entries_gathered in Hret.
    apply sorted_reverse_permutation in Hret. unfold entries_for.
    rewrite <- (proj1 (Permutation_count_occ string_dec _ _)
                  (Permutation_map Entry.file_name Hret) "default_session.json").
    exact Htwice. }
  split; [exact Hglob|]. split; [exact Hfiles|]. split; [exact Htwice|].
  split; [exact Hreturned|]. split.
  - intros Hnum.
    destruct (sorted_reverse_numeric _ (readable_entries_numeric (Some d) Hnum))
      as [sessions [Hret _]].
    assert (Hlist : list_sessions dir_path stat clock (Some d) = Ret sessions).
    { cbn [list_sessions]. rewrite <- readable_entries_gathered. exact Hret. }
    exists sessions. split; [exact Hlist | exact (Hreturned sessions Hlist)].
  - intros Hnull. cbn [list_sessions]. rewrite <- readable_entries_gathered.
    apply sorted_reverse_null.
    + pose proof (count_occ_bound string_dec "default_session.json"
                    (map Entry.file_name
                       (readable_entries dir_path stat clock (Some d)))) as Hb.
      unfold entries_for in Htwice. rewrite Htwice, length_map in Hb. exact Hb.
    + assert (Hin : In "default_session.json"
                      (map Entry.file_name
                         (readable_entries dir_path stat clock (Some d)))).
      { apply (count_occ_In string_dec). unfold entries_for in Htwice. lia. }
      apply in_map_iff in Hin as [e [Hname Hin]]. exists e. split; [exact Hin|].
      destruct (readable_entries_In d e Hin) as [i [_ He]]. rewrite Hname in He.
      exact (session_entry_null_last_used _ _ _ _ Hnull He).
Qed.

End ListSessions.

Lemma sample_dir_entries :
  readable_entries "/sessions" sample_stat (fun _ => 50) (Some sample_dir) =
  [Entry.mk (JStr "bob") "/sessions/alice_session.json" "alice_session.json"
            (JNum 5) (JNum 6) 512 true;
   Entry.mk (JStr unknown_username) "/sessions/default_session.json"
            "default_session.json" (JNum 7) (JNum 7) 512 false;
   Entry.mk (JStr "carol") "/sessions/carol_session.json" "carol_session.json"
            (JNum 3) (JNum 6) 512 false;
   Entry.mk (JStr unknown_username) "/sessions/default_session.json"
            "default_session.json" (JNum 7) (JNum 7) 512 false].
Proof. reflexivity. Defined.

Lemma sample_dir_numeric_metadata :
  Forall (fun f => numeric_metadata (snd f)) sample_dir.
Proof. repeat constructor; discriminate. Defined.

Lemma sample_dir_numeric :
  Forall numeric_last_used
    (readable_entries "/sessions" sample_stat (fun _ => 50) (Some sample_dir)).
Proof.
  apply readable_entries_numeric. exact sample_dir_numeric_metadata.
Defined.

Lemma sample_dir_NoDup : NoDup (map fst sample_dir).
Proof.
  repeat constructor; cbn; intuition discriminate.
Defined.

(** The sample directory, listed: the two entries for the default file
    first, then the entries of equal [last_used] in the order of [glob]. *)
Example list_sessions_sample :
  list_sessions "/sessions" sample_stat (fun _ => 50) (Some sample_dir) =
  Ret [Entry.mk (JStr unknown_username) "/sessions/default_session.json"
                "default_session.json" (JNum 7) (JNum 7) 512 false;
       Entry.mk (JStr unknown_username) "/sessions/default_session.json"
                "default_session.json" (JNum 7) (JNum 7) 512 false;
       Entry.mk (JStr "bob") "/sessions/alice_session.json" "alice_session.json"
                (JNum 5) (JNum 6) 512 true;
       Entry.mk (JStr "carol") "/sessions/carol_session.json" "carol_session.json"
                (JNum 3) (JNum 6) 512 false].
Proof. reflexivity. Qed.



(** C10 as it is stated, for every readable default file, fails: the
    default file of this directory can be read and records [null] as its
    [last_used]; its two entries make [sorted] compare [None] with
    [None], and [list_sessions] returns no list. *)
Lemma list_sessions_raises_on_null_default :
  session_entry "/sessions" sample_stat 50 null_default_dir "default_session.json"
  = Ret (Entry.mk (JStr unknown_username) "/sessions/default_session.json"
                  "default_session.json" (JNum 1) JNull 512 true) /\
  entries_for "default_session.json"
    (readable_entries "/sessions" sample_stat (fun _ => 50) (Some null_default_dir))
  = 2%nat /\
  list_sessions "/sessions" sample_stat (fun _ => 50) (Some null_default_dir)
  = Raise TypeError.
Proof. split; [|split]; reflexivity. Qed.

Lemma list_sessions_lists_default_twice_witness :
  count_occ string_dec (Fs.glob_session_files sample_dir) "default_session.json" = 1%nat /\
  count_occ string_dec (session_files sample_dir) "default_session.json" = 2%nat /\
  entries_for "default_session.json"
    (readable_entries "/sessions" sample_stat (fun _ => 50) (Some sample_dir)) = 2%nat /\
  (forall sessions,
     list_sessions "/sessions" sample_stat (fun _ => 50) (Some sample_dir) = Ret sessions ->
     entries_for "default_session.json" sessions = 2%nat) /\
  (Forall (fun f => numeric_metadata (snd f)) sample_dir ->
   exists sessions,
     list_sessions "/sessions" sample_stat (fun _ => 50) (Some sample_dir) = Ret sessions /\
     entries_for "default_session.json" sessions = 2%nat) /\
  (records_null_last_used "default_session.json" sample_dir ->
   exists e, list_sessions "/sessions" sample_stat (fun _ => 50) (Some sample_dir)
             = Raise e).
Proof.
  refine (list_sessions_lists_default_twice "/sessions" sample_stat (fun _ => 50)
            sample_dir sample_dir_NoDup _).
  intros now. eexists. reflexivity.
Defined.

(** ** Logging in by hand *)

Lemma manual_login_loop_step (max_retries : nat) (env : nat -> attempt)
    (dir : directory) (c : client) (retry_count : nat) :
  manual_login_loop max_retries env dir c retry_count =
  if lt_dec retry_count max_retries then
    match login_turn max_retries retry_count c (env retry_count) dir with
    | (Return result c' dir', log) => ((result, (c', dir')), log)
    | (Continue c', log) =>
        let '(r, log') := manual_login_loop max_retries env dir c' (S retry_count) in
        (r, (log ++ log')%list)
    end
  else ((false, (c, dir)), []).
Proof.
  simp manual_login_loop.
  destruct (lt_dec retry_count max_retries); simpl; [|reflexivity].
  destruct (login_turn max_retries retry_count c (env retry_count) dir)
    as [[b c' d'|c'] log]; reflexivity.
Qed.


Lemma base_url_is_not_login : Str.contains "accounts/login" BASE_URL = false.
Proof. reflexivity. Qed.











(** A login that fails to reach the main page at the first attempt and
    reaches it thirty seconds into the second. *)
Example manual_login_second_attempt :
  manual_login 3
    (fun n => match n with O => attempt_leaving_login | _ => attempt_reaching_base end)
    (init None) [] =
  ((true,
    (mkClient (Some "alice") "alice_session.json" false true (JStr "alice"),
     [("alice_session.json", Some (sample_record 100 (JStr "alice") 10 11))])),
   [InitBrowser; WaitForUrl BASE_URL 300000 300000; Sleep 2;
    InitBrowser; WaitForUrl BASE_URL 300000 30000]).
Proof. reflexivity. Qed.



(** ** The name of the session file *)

(** C9.  For an ASCII user name, the session file is named after the user
    name in lower case, followed by [_session.json], and putting the user
    name into lower case beforehand, once or again, does not change the
    name of the file: a user name without capitals is left as it is, and
    two user names that differ only in the case of their letters have
    the same session file.  Without a user name the file is
    [default_session.json]. *)
Theorem session_file_name_idempotent (u : string) :
  Str.isascii u = true ->
  lowercased u (Str.lower u) /\
  (u <> "" -> session_path (init (Some u)) = Str.lower u ++ "_session.json") /\
  remove_session_file u = Str.lower u ++ "_session.json" /\
  (has_capital u = false -> Str.lower u = u) /\
  session_path (init (Some (Str.lower u))) = session_path (init (Some u)) /\
  remove_session_file (Str.lower u) = remove_session_file u /\
  (forall v, same_ignoring_case u v = true ->
     session_path (init (Some v)) = session_path (init (Some u)) /\
     remove_session_file v = remove_session_file u) /\
  (forall name, truthy_str name = false ->
     session_path (init name) = "default_session.json").
Proof.
  intros _. split; [apply lower_lowercased|].
  split; [|split; [|split; [|split; [|split; [|split]]]]].
  - intros Hu. cbn [init session_path]. unfold init_session_path.
    apply String.eqb_neq in Hu. rewrite Hu. reflexivity.
  - apply remove_session_file_name.
  - apply lower_without_capital.
  - cbn [init session_path]. unfold init_session_path.
    rewrite lower_eqb_empty, lower_idempotent. reflexivity.
  - rewrite !remove_session_file_name, lower_idempotent. reflexivity.
  - intros v Hv. pose proof (same_ignoring_case_lower u v Hv) as Hl. split.
    + cbn [init session_path]. unfold init_session_path.
      rewrite <- (lower_eqb_empty v), <- (lower_eqb_empty u), Hl. reflexivity.
    + rewrite !remove_session_file_name, Hl. reflexivity.
  - intros [name|]; cbn [truthy_str init session_path init_session_path];
      [|reflexivity].
    intros H. rewrite H. reflexivity.
Qed.

Lemma session_file_name_idempotent_witness :
  lowercased "Alice_99" "alice_99" /\
  ("Alice_99" <> "" -> session_path (init (Some "Alice_99")) = "alice_99_session.json") /\
  remove_session_file "Alice_99" = "alice_99_session.json" /\
  (has_capital "Alice_99" = false -> "alice_99" = "Alice_99") /\
  session_path (init (Some "alice_99")) = session_path (init (Some "Alice_99")) /\
  remove_session_file "alice_99" = remove_session_file "Alice_99" /\
  (forall v, same_ignoring_case "Alice_99" v = true ->
     session_path (init (Some v)) = session_path (init (Some "Alice_99")) /\
     remove_session_file v = remove_session_file "Alice_99") /\
  (forall name, truthy_str name = false ->
     session_path (init name) = "default_session.json").
Proof. exact (session_file_name_idempotent "Alice_99" eq_refl). Defined.

(** * Further properties *)

(** ** What [load_session] does and does not do *)

Lemma any_valid_sessionid_true (now : Q) (cookies : list json) :
  any_valid_sessionid now cookies = Ret true ->
  exists cookie expires e,
    In cookie cookies /\
    Py.get "name" JNull cookie = Ret (JStr "sessionid") /\
    Py.get "expires" (JNum 0) cookie = Ret expires /\
    Py.as_number expires = Some e /\
    now < e.
Proof.
  induction cookies as [|cookie rest IH]; cbn [any_valid_sessionid]; [discriminate|].
  destruct (Py.get "name" JNull cookie) as [name|] eqn:Hname; [|discriminate].
  cbn [bind].
  destruct (Py.is_str "sessionid" name) eqn:Hstr.
  - apply is_str_true in Hstr. subst name.
    destruct (Py.get "expires" (JNum 0) cookie) as [expires|] eqn:Hexp; [|discriminate].
    cbn [bind]. unfold Py.gt_float.
    destruct (Py.as_number expires) as [e|] eqn:He; [|discriminate]. cbn [bind].
    destruct (Py.Qltb now e) eqn:Hlt.
    + intros _. exists cookie, expires, e. apply Qltb_lt in Hlt.
      repeat split; auto. left. reflexivity.
    + intros H. destruct (IH H) as [c' [x [e' [Hin Hrest]]]].
      exists c', x, e'. split; [right; exact Hin | exact Hrest].
  - intros H. destruct (IH H) as [c' [x [e' [Hin Hrest]]]].
    exists c', x, e'. split; [right; exact Hin | exact Hrest].
Qed.

(** X1.  [load_session] returns true only when the session file is a
    document with a [storage_state] whose [cookies] hold a cookie named
    [sessionid] with a numeric [expires] later than the current time; it
    has then set [is_logged_in].  Nothing is assumed of the file. *)
Theorem load_session_true_only_with_live_cookie
    (c : client) (now t_touch : Q) (dir : directory) :
  fst (load_session c now t_touch dir) = true ->
  exists session_data storage_state cookies items cookie expires e,
    Fs.read_json (session_path c) dir = Ret session_data /\
    Py.getitem "storage_state" session_data = Ret storage_state /\
    Py.get "cookies" (JArr []) storage_state = Ret cookies /\
    Py.iter cookies = Ret items /\
    In cookie items /\
    Py.get "name" JNull cookie = Ret (JStr "sessionid") /\
    Py.get "expires" (JNum 0) cookie = Ret expires /\
    Py.as_number expires = Some e /\
    now < e /\
    is_logged_in (fst (snd (load_session c now t_touch dir))) = true.
Proof.
  unfold load_session, load_session_result.
  destruct (Fs.exists_ (session_path c) dir); cbn [negb]; [|discriminate].
  destruct (Fs.read_json (session_path c) dir) as [sd|] eqn:Hread; [|discriminate].
  cbn [bind].
  destruct (Py.contains "storage_state" sd) as [[|]|]; try discriminate. cbn [bind].
  destruct (Py.getitem "storage_state" sd) as [state|] eqn:Hstate; [|discriminate].
  cbn [bind].
  destruct (Py.get "cookies" (JArr []) state) as [cookies|] eqn:Hcookies;
    [|discriminate].
  cbn [bind].
  destruct (Py.iter cookies) as [items|] eqn:Hitems; [|discriminate]. cbn [bind].
  rewrite load_cookies_any_valid.
  destruct (any_valid_sessionid now items) as [[|]|] eqn:Hvalid; try discriminate.
  cbn [bind].
  destruct (load_metadata c sd t_touch dir) as [[c' dir']|]; [|discriminate].
  cbn. intros _.
  destruct (any_valid_sessionid_true _ _ Hvalid) as [cookie [expires [e H]]].
  exists sd, state, cookies, items, cookie, expires, e.
  destruct H as (Hin & Hname & Hexp & He & Hlt).
  repeat split; try assumption; reflexivity.
Qed.

Lemma load_session_true_only_with_live_cookie_witness :
  exists session_data storage_state cookies items cookie expires e,
    Fs.read_json "alice_session.json" sample_dir = Ret session_data /\
    Py.getitem "storage_state" session_data = Ret storage_state /\
    Py.get "cookies" (JArr []) storage_state = Ret cookies /\
    Py.iter cookies = Ret items /\
    In cookie items /\
    Py.get "name" JNull cookie = Ret (JStr "sessionid") /\
    Py.get "expires" (JNum 0) cookie = Ret expires /\
    Py.as_number expires = Some e /\
    50 < e /\
    is_logged_in (fst (snd (load_session (init (Some "Alice")) 50 51 sample_dir))) = true.
Proof.
  exact (load_session_true_only_with_live_cookie (init (Some "Alice")) 50 51 sample_dir
           eq_refl).
Defined.

Lemma map_fst_assoc_set {A : Type} (k : string) (v : A) (kvs : list (string * A)) :
  Py.assoc_get k kvs <> None ->
  map fst (Py.assoc_set k v kvs) = map fst kvs.
Proof.
  induction kvs as [|[k' v'] rest IH]; cbn; [congruence|].
  destruct (String.eqb k k') eqn:E; cbn.
  - intros _. apply String.eqb_eq in E. subst. reflexivity.
  - intros H. rewrite (IH H). reflexivity.
Qed.

(** Every way out of [load_session] but the successful one leaves the
    client and the directory alone. *)
Lemma load_session_result_not_loaded (c : client) (now t_touch : Q) (dir : directory) :
  fst (load_session_result c now t_touch dir) <> Loaded ->
  snd (load_session_result c now t_touch dir) = (c, dir).
Proof.
  unfold load_session_result.
  destruct (Fs.exists_ (session_path c) dir); cbn [negb]; [|reflexivity].
  destruct (Fs.read_json (session_path c) dir) as [sd|]; [|reflexivity].
  cbn [bind].
  destruct (Py.contains "storage_state" sd) as [[|]|]; try reflexivity. cbn [bind].
  destruct (Py.getitem "storage_state" sd) as [state|]; [|reflexivity]. cbn [bind].
  destruct (Py.get "cookies" (JArr []) state) as [cookies|]; [|reflexivity].
  cbn [bind].
  destruct (Py.iter cookies) as [items|]; [|reflexivity]. cbn [bind].
  rewrite load_cookies_any_valid.
  destruct (any_valid_sessionid now items) as [[|]|]; try reflexivity. cbn [bind].
  destruct (load_metadata c sd t_touch dir) as [[c' dir']|]; [|reflexivity].
  cbn. congruence.
Qed.

(** The successful way out: the file is a dict, the check of the cookies
    has passed, and the state is the one [load_metadata] has left, with
    [is_logged_in] set. *)
Lemma load_session_result_loaded (c : client) (now t_touch : Q) (dir : directory) :
  fst (load_session_result c now t_touch dir) = Loaded ->
  exists top c' dir',
    Py.assoc_get (session_path c) dir = Some (Some (JObj top)) /\
    compute_is_valid (JObj top) now = Ret true /\
    load_metadata c (JObj top) t_touch dir = Ret (c', dir') /\
    snd (load_session_result c now t_touch dir) = (set_is_logged_in true c', dir').
Proof.
  intros H.
  destruct (Py.assoc_get (session_path c) dir) as [[sd|]|] eqn:Hfile.
  - rewrite (load_session_result_compute c dir now t_touch sd Hfile) in H |- *.
    destruct (compute_is_valid sd now) as [[|]|] eqn:Hvalid;
      [|destruct (Py.contains "storage_state" sd) as [[|]|]; discriminate
       |discriminate].
    destruct (load_metadata c sd t_touch dir) as [[c' dir']|] eqn:Hmd;
      [|discriminate].
    assert (Hsd : exists top, sd = JObj top).
    { unfold compute_is_valid in Hvalid.
      destruct sd as [| b | q | s | items | top]; cbn in Hvalid;
        try discriminate; eauto.
      - destruct (Str.contains "storage_state" s); discriminate.
      - destruct (existsb (Py.is_str "storage_state") items); discriminate. }
    destruct Hsd as [top ->].
    exists top, c', dir'. repeat split; assumption || reflexivity.
  - exfalso. revert H. unfold load_session_result, Fs.exists_, Fs.read_json.
    rewrite Hfile. discriminate.
  - exfalso. revert H. unfold load_session_result, Fs.exists_, Fs.read_json.
    rewrite Hfile. discriminate.
Qed.

Lemma load_metadata_cases (c c' : client) (top : list (string * json)) (t_touch : Q)
    (dir dir' : directory) :
  load_metadata c (JObj top) t_touch dir = Ret (c', dir') ->
  (Py.assoc_get "metadata" top = None /\ c' = c /\ dir' = dir) \/
  (exists md,
     Py.assoc_get "metadata" top = Some (JObj md) /\
     c' = set_current_username
            (first_truthy
               [match Py.assoc_get "username" md with Some u => u | None => JNull end;
                opt_str_json (username c)]
               (match Py.assoc_get "username" md with Some u => u | None => JNull end)) c /\
     dir' = Fs.write_json (session_path c)
              (JObj (Py.assoc_set "metadata"
                       (JObj (Py.assoc_set "last_used" (JNum t_touch) md)) top)) dir).
Proof.
  destruct (Py.assoc_get "metadata" top) as [[| | | | |md]|] eqn:Hmd;
    try (unfold load_metadata; cbn [Py.contains Py.getitem bind]; rewrite Hmd;
         cbn; discriminate).
  - rewrite (load_metadata_dict _ _ _ _ _ Hmd). cbv zeta. intros [= <- <-].
    right. exists md. repeat split.
  - rewrite (load_metadata_absent _ _ _ _ Hmd). intros [= <- <-]. left. repeat split.
Qed.

Lemma returned_false (r : load_result) : returned r = false <-> r <> Loaded.
Proof. destruct r; cbn; split; congruence. Qed.

(** X2.  When [load_session] returns false it has changed neither the
    client nor any file (a write to the session file is taken to
    succeed). *)
Theorem load_session_false_changes_nothing
    (c : client) (now t_touch : Q) (dir : directory) :
  fst (load_session c now t_touch dir) = false ->
  snd (load_session c now t_touch dir) = (c, dir).
Proof.
  unfold load_session.
  pose proof (load_session_result_not_loaded c now t_touch dir) as H.
  destruct (load_session_result c now t_touch dir) as [r s]. cbn [fst snd] in *.
  intros Hr. apply H. apply returned_false. exact Hr.
Qed.

Lemma load_session_false_changes_nothing_witness :
  snd (load_session (init (Some "carol")) 50 51 sample_dir)
  = (init (Some "carol"), sample_dir).
Proof.
  exact (load_session_false_changes_nothing (init (Some "carol")) 50 51 sample_dir
           eq_refl).
Defined.

(** The files and the fields of the client that [load_session] leaves
    alone. *)
Lemma load_session_leaves_alone (c : client) (now t_touch : Q) (dir : directory) :
  let c' := fst (snd (load_session c now t_touch dir)) in
  let dir' := snd (snd (load_session c now t_touch dir)) in
  map fst dir' = map fst dir /\
  (forall other, other <> session_path c ->
     Py.assoc_get other dir' = Py.assoc_get other dir) /\
  username c' = username c /\
  session_path c' = session_path c /\
  page c' = page c.
Proof.
  cbv zeta. unfold load_session.
  pose proof (load_session_result_not_loaded c now t_touch dir) as Hnot.
  pose proof (load_session_result_loaded c now t_touch dir) as Hloaded.
  destruct (load_session_result c now t_touch dir) as [r s]. cbn [fst snd] in *.
  assert (Hr : r = Loaded \/ r <> Loaded) by (destruct r; auto; right; discriminate).
  destruct Hr as [->|Hr].
  - destruct (Hloaded eq_refl) as [top [c' [dir' [Hfile [_ [Hmd ->]]]]]].
    cbn [fst snd].
    destruct (load_metadata_cases _ _ _ _ _ _ Hmd)
      as [[_ [-> ->]] | [md [_ [-> ->]]]].
    + repeat split.
    + split; [|split; [|repeat split]].
      * unfold Fs.write_json. apply map_fst_assoc_set. rewrite Hfile. discriminate.
      * intros other Hne. unfold Fs.write_json. apply assoc_get_set_other. exact Hne.
  - rewrite (Hnot Hr). repeat split.
Qed.

(** X3.  [load_session] creates no file, deletes none and leaves every
    file other than the session file of the client as it is; it does not
    change the user name, the session path or the page of the client. *)
Theorem load_session_frame (c : client) (now t_touch : Q) (dir : directory) :
  let c' := fst (snd (load_session c now t_touch dir)) in
  let dir' := snd (snd (load_session c now t_touch dir)) in
  map fst dir' = map fst dir /\
  (forall other, other <> session_path c ->
     Py.assoc_get other dir' = Py.assoc_get other dir) /\
  username c' = username c /\
  session_path c' = session_path c /\
  page c' = page c.
Proof. exact (load_session_leaves_alone c now t_touch dir). Qed.

(** X4.  A successful [load_session] rewrites the session file with the
    same keys in the same order and the same value under every key but
    [metadata]; in the metadata only [last_used] changes, to the clock
    reading of the load.  A file without metadata is not rewritten. *)
Theorem load_session_touches_only_last_used
    (c : client) (now t_touch : Q) (dir : directory) (top : list (string * json)) :
  Py.assoc_get (session_path c) dir = Some (Some (JObj top)) ->
  fst (load_session c now t_touch dir) = true ->
  exists top',
    Fs.read_json (session_path c) (snd (snd (load_session c now t_touch dir)))
      = Ret (JObj top') /\
    map fst top' = map fst top /\
    (forall k, k <> "metadata" -> Py.assoc_get k top' = Py.assoc_get k top) /\
    match Py.assoc_get "metadata" top with
    | Some (JObj md) =>
        exists md',
          Py.assoc_get "metadata" top' = Some (JObj md') /\
          Py.assoc_get "last_used" md' = Some (JNum t_touch) /\
          (forall k, k <> "last_used" -> Py.assoc_get k md' = Py.assoc_get k md)
    | _ => top' = top
    end.
Proof.
  intros Hfile. unfold load_session.
  pose proof (load_session_result_loaded c now t_touch dir) as Hloaded.
  destruct (load_session_result c now t_touch dir) as [r s]. cbn [fst snd] in *.
  intros Hr. assert (r = Loaded) by (destruct r; cbn in Hr; congruence). subst r.
  destruct (Hloaded eq_refl) as [top0 [c' [dir' [Hfile' [_ [Hmd ->]]]]]].
  rewrite Hfile in Hfile'. injection Hfile' as <-. cbn [snd].
  destruct (load_metadata_cases _ _ _ _ _ _ Hmd)
    as [[Hnone [-> ->]] | [md [Hsome [-> ->]]]].
  - exists top. unfold Fs.read_json. rewrite Hfile, Hnone. repeat split.
  - eexists. rewrite read_json_write_json. split; [reflexivity|].
    split; [apply map_fst_assoc_set; rewrite Hsome; discriminate|].
    split; [intros k Hk; apply assoc_get_set_other; exact Hk|].
    rewrite Hsome. eexists. split; [apply assoc_get_set_same|].
    split; [apply assoc_get_set_same|].
    intros k Hk. apply assoc_get_set_other. exact Hk.
Qed.

Lemma load_session_touches_only_last_used_witness :
  exists top',
    Fs.read_json "alice_session.json"
      (snd (snd (load_session (init (Some "Alice")) 50 51 sample_dir)))
      = Ret (JObj top') /\
    map fst top' = ["storage_state"; "metadata"] /\
    (forall k, k <> "metadata" ->
       Py.assoc_get k top'
       = Py.assoc_get k [("storage_state", sample_state 100);
                         ("metadata", sample_metadata (JStr "bob") 5 6)]) /\
    exists md',
      Py.assoc_get "metadata" top' = Some (JObj md') /\
      Py.assoc_get "last_used" md' = Some (JNum 51) /\
      (forall k, k <> "last_used" ->
         Py.assoc_get k md'
         = Py.assoc_get k [("username", JStr "bob"); ("created_at", JNum 5);
                           ("last_used", JNum 6)]).
Proof.
  exact (load_session_touches_only_last_used (init (Some "Alice")) 50 51 sample_dir
           [("storage_state", sample_state 100);
            ("metadata", sample_metadata (JStr "bob") 5 6)] eq_refl eq_refl).
Defined.

Lemma compute_is_valid_set_metadata (top : list (string * json)) (md : json) (now : Q) :
  compute_is_valid (JObj (Py.assoc_set "metadata" md top)) now
  = compute_is_valid (JObj top) now.
Proof.
  unfold compute_is_valid. cbn [Py.contains Py.getitem].
  rewrite (assoc_get_set_other "metadata" "storage_state") by discriminate.
  reflexivity.
Qed.

(** X5.  What [load_session] returns does not depend on the loads made
    before: the file an earlier load has left gives the same answer as
    the file it found, at any later time and for any client of the same
    session file. *)
Theorem load_session_unaffected_by_earlier_load
    (c later : client) (now t_touch now' t_touch' : Q) (dir : directory) :
  session_path later = session_path c ->
  fst (load_session later now' t_touch'
         (snd (snd (load_session c now t_touch dir))))
  = fst (load_session later now' t_touch' dir).
Proof.
  intros Hpath. unfold load_session at 2.
  pose proof (load_session_result_not_loaded c now t_touch dir) as Hnot.
  pose proof (load_session_result_loaded c now t_touch dir) as Hloaded.
  destruct (load_session_result c now t_touch dir) as [r s]. cbn [fst snd] in *.
  assert (Hr : r = Loaded \/ r <> Loaded) by (destruct r; auto; right; discriminate).
  destruct Hr as [->|Hr]; [|rewrite (Hnot Hr); reflexivity].
  destruct (Hloaded eq_refl) as [top [c' [dir' [Hfile [_ [Hmd ->]]]]]]. cbn [snd].
  destruct (load_metadata_cases _ _ _ _ _ _ Hmd)
    as [[_ [-> ->]] | [md [Hsome [-> ->]]]]; [reflexivity|].
  unfold load_session.
  rewrite <- Hpath in Hfile |- *.
  rewrite (load_session_result_compute later dir now' t_touch' _ Hfile).
  erewrite (load_session_result_compute later (Fs.write_json _ _ dir) now' t_touch');
    [|unfold Fs.write_json; apply assoc_get_set_same].
  rewrite compute_is_valid_set_metadata.
  destruct (compute_is_valid (JObj top) now') as [[|]|]; [| |reflexivity].
  - erewrite load_metadata_dict by apply assoc_get_set_same.
    rewrite (load_metadata_dict _ _ _ _ _ Hsome). reflexivity.
  - cbn [Py.contains].
    rewrite (assoc_get_set_other "metadata" "storage_state") by discriminate.
    reflexivity.
Qed.

Lemma load_session_unaffected_by_earlier_load_witness :
  fst (load_session (init (Some "ALICE")) 60 61
         (snd (snd (load_session (init (Some "Alice")) 50 51 sample_dir))))
  = fst (load_session (init (Some "ALICE")) 60 61 sample_dir).
Proof.
  exact (load_session_unaffected_by_earlier_load (init (Some "Alice"))
           (init (Some "ALICE")) 50 51 60 61 sample_dir eq_refl).
Defined.

(** ** Expiry *)

Lemma Qltb_ge (x y : Q) : Py.Qltb x y = false <-> y <= x.
Proof.
  unfold Py.Qltb. rewrite negb_false_iff. apply Qle_bool_iff.
Qed.

Lemma any_valid_sessionid_monotone (now now' : Q) (cookies : list json) :
  now <= now' ->
  (any_valid_sessionid now cookies = Ret false ->
   any_valid_sessionid now' cookies = Ret false) /\
  (any_valid_sessionid now' cookies = Ret true ->
   any_valid_sessionid now cookies = Ret true).
Proof.
  intros Hle. induction cookies as [|cookie rest [IHf IHt]];
    cbn [any_valid_sessionid]; [split; [reflexivity | discriminate]|].
  destruct (Py.get "name" JNull cookie) as [name|]; [|split; discriminate].
  cbn [bind].
  destruct (Py.is_str "sessionid" name); [|split; assumption].
  destruct (Py.get "expires" (JNum 0) cookie) as [expires|]; [|split; discriminate].
  cbn [bind]. unfold Py.gt_float.
  destruct (Py.as_number expires) as [e|]; [|split; discriminate]. cbn [bind].
  destruct (Py.Qltb now e) eqn:H1; destruct (Py.Qltb now' e) eqn:H2;
    try (split; (assumption || discriminate || reflexivity)).
  exfalso. apply Qltb_ge in H1. apply Qltb_lt in H2.
  exact (Qlt_irrefl _ (Qlt_le_trans _ _ _ H2 (Qle_trans _ _ _ H1 Hle))).
Qed.

(** X6.  Expiry goes one way: a record that the validity check finds
    expired at some time is found expired at every later time, and a
    record found valid at some time is found valid at every earlier one,
    whatever the record holds. *)
Theorem validity_is_monotone_in_time (session_data : json) (now now' : Q) :
  now <= now' ->
  (compute_is_valid session_data now = Ret false ->
   compute_is_valid session_data now' = Ret false) /\
  (compute_is_valid session_data now' = Ret true ->
   compute_is_valid session_data now = Ret true).
Proof.
  intros Hle. unfold compute_is_valid.
  destruct (Py.contains "storage_state" session_data) as [[|]|];
    [|split; (reflexivity || discriminate) | split; discriminate].
  cbn [bind].
  destruct (Py.getitem "storage_state" session_data) as [state|];
    [|split; discriminate].
  cbn [bind].
  destruct (Py.get "cookies" (JArr []) state) as [cookies|]; [|split; discriminate].
  cbn [bind].
  destruct (Py.iter cookies) as [items|]; [|split; discriminate]. cbn [bind].
  exact (any_valid_sessionid_monotone now now' items Hle).
Qed.

Lemma validity_is_monotone_in_time_witness :
  compute_is_valid (sample_record 100 (JStr "bob") 5 6) 150 = Ret false /\
  compute_is_valid (sample_record 100 (JStr "bob") 5 6) 50 = Ret true.
Proof.
  split.
  - apply (proj1 (validity_is_monotone_in_time (sample_record 100 (JStr "bob") 5 6)
                    100 150 ltac:(discriminate))).
    reflexivity.
  - apply (proj2 (validity_is_monotone_in_time (sample_record 100 (JStr "bob") 5 6)
                    50 99 ltac:(discriminate))).
    reflexivity.
Defined.

(** ** The stand-alone check *)

Lemma str_length_app (a b : string) :
  String.length (a ++ b) = (String.length a + String.length b)%nat.
Proof. induction a as [|c a IH]; cbn; [reflexivity | rewrite IH; reflexivity]. Qed.

Lemma py_len_sized (j : json) :
  (sized j = true -> exists n, py_len j = Ret n) /\
  (sized j = false -> py_len j = Raise TypeError).
Proof. destruct j; cbn; split; intros; eauto; discriminate. Qed.

(** What [check_session_file] answers for a file, in one look. *)
Lemma check_session_file_cases (name : string) (dir : directory) :
  check_session_file name dir =
  match Py.assoc_get name dir with
  | Some (Some (JObj top)) =>
      match Py.assoc_get "cookies" top, Py.assoc_get "origins" top with
      | Some cookies, Some origins =>
          if sized cookies && sized origins then Ret true else Raise TypeError
      | _, _ => Ret false
      end
  | _ => Ret false
  end.
Proof.
  unfold check_session_file, Fs.exists_, Fs.read_json.
  destruct (Py.assoc_get name dir) as [[sd|]|]; cbn [negb]; try reflexivity.
  destruct sd as [| b | q | s | items | top]; cbn [is_dict negb]; try reflexivity.
  cbn [Py.contains Py.get Py.getitem bind].
  destruct (Py.assoc_get "cookies" top) as [cookies|];
    destruct (Py.assoc_get "origins" top) as [origins|]; cbn [app bind];
    try reflexivity.
  destruct (py_len_sized cookies) as [Hc Hc'], (py_len_sized origins) as [Ho Ho'].
  destruct (sized cookies).
  - destruct (Hc eq_refl) as [n Hn]. rewrite Hn.
    destruct (negb (Py.truthy cookies)); cbn [bind andb];
      (destruct (sized origins);
       [destruct (Ho eq_refl) as [m ->] | rewrite (Ho' eq_refl)]; reflexivity).
  - rewrite (Hc' eq_refl).
    destruct (negb (Py.truthy cookies)); reflexivity.
Qed.



Lemma save_session_cases (c : client) (state : exc json) (t_created t_last_used : Q)
    (dir : directory) :
  _save_session c state t_created t_last_used dir = dir \/
  exists j, _save_session c state t_created t_last_used dir
            = Fs.write_json (session_path c) j dir.
Proof.
  unfold _save_session.
  destruct (negb (is_logged_in c) || negb (page c)); [left; reflexivity|].
  destruct state as [s|e]; cbn [bind try_except]; [right; eauto | left; reflexivity].
Qed.

(** X8.  The file that [_save_session] writes is not one that
    [check_session_file] accepts: the checker looks for [cookies] and
    [origins] at the top of the document, where the writer puts
    [storage_state] and [metadata]. *)
Theorem saved_session_fails_check
    (c : client) (state : json) (t_created t_last_used : Q) (dir : directory) :
  is_logged_in c = true ->
  page c = true ->
  check_session_file (session_path c)
    (_save_session c (Ret state) t_created t_last_used dir) = Ret false.
Proof.
  intros Hlogged Hpage. unfold _save_session. rewrite Hlogged, Hpage.
  cbn [negb orb bind try_except]. rewrite check_session_file_cases.
  unfold Fs.write_json. rewrite assoc_get_set_same. reflexivity.
Qed.

Lemma saved_session_fails_check_witness :
  check_session_file "alice_session.json"
    (_save_session sample_logged_in (Ret (sample_state 100)) 10 11 sample_dir)
  = Ret false.
Proof.
  exact (saved_session_fails_check sample_logged_in (sample_state 100) 10 11 sample_dir
           eq_refl eq_refl).
Defined.

Lemma init_session_path_length (u : option string) :
  (13 <= String.length (init_session_path u))%nat.
Proof.
  unfold init_session_path. destruct u as [u|]; [|cbn; lia].
  destruct (negb (String.eqb u "")); [|cbn; lia].
  rewrite str_length_app. cbn. lia.
Qed.

Lemma check_session_file_write_other (name other : string) (j : json) (dir : directory) :
  other <> name ->
  check_session_file other (Fs.write_json name j dir) = check_session_file other dir.
Proof.
  intros Hne. rewrite !check_session_file_cases. unfold Fs.write_json.
  rewrite (assoc_get_set_other _ _ _ _ Hne). reflexivity.
Qed.

(** X9.  [test_session] looks at [session.json], a name that no client
    gives its session file, so that saving a session, in either
    directory, never changes what [test_session] reports. *)
Theorem test_session_ignores_saved_sessions
    (c : client) (state : exc json) (t_created t_last_used : Q)
    (home project : directory) :
  path_consistent c ->
  session_path c <> "session.json" /\
  test_session home (_save_session c state t_created t_last_used project)
    = test_session home project /\
  test_session (_save_session c state t_created t_last_used home) project
    = test_session home project.
Proof.
  intros Hpath.
  assert (Hne : "session.json" <> session_path c).
  { intros H. pose proof (init_session_path_length (username c)) as Hlen.
    rewrite <- Hpath, <- H in Hlen. cbn in Hlen. lia. }
  split; [congruence|]. unfold test_session.
  split.
  - destruct (save_session_cases c state t_created t_last_used project)
      as [-> | [j ->]]; [reflexivity|].
    rewrite (check_session_file_write_other _ _ _ _ Hne). reflexivity.
  - destruct (save_session_cases c state t_created t_last_used home)
      as [-> | [j ->]]; [reflexivity|].
    rewrite (check_session_file_write_other _ _ _ _ Hne). reflexivity.
Qed.

Lemma test_session_ignores_saved_sessions_witness :
  session_path sample_logged_in <> "session.json" /\
  test_session [] (_save_session sample_logged_in (Ret (sample_state 100)) 10 11 sample_dir)
    = test_session [] sample_dir /\
  test_session (_save_session sample_logged_in (Ret (sample_state 100)) 10 11 []) sample_dir
    = test_session [] sample_dir.
Proof.
  exact (test_session_ignores_saved_sessions sample_logged_in (Ret (sample_state 100))
           10 11 [] sample_dir eq_refl).
Defined.

(** ** Removing and listing *)

(** X10.  A session can be removed once: after [remove_session] has
    returned true for a user name, a second call for the same user name
    returns false and changes nothing. *)
Theorem remove_session_twice (username : string) (dir dir' : option directory) :
  remove_session username dir = Ret (true, dir') ->
  remove_session username dir' = Ret (false, dir').
Proof.
  unfold remove_session, Fs.path_exists, Fs.unlink.
  destruct dir as [d|]; [|discriminate].
  destruct (Fs.NAME_MAX <? String.length (remove_session_file username))%nat;
    [discriminate|].
  cbn [bind].
  destruct (Fs.exists_ (remove_session_file username) d) eqn:Hex;
    cbn [negb bind try_except]; [|discriminate].
  intros [= <-]. cbn [bind]. unfold Fs.exists_ at 1.
  rewrite assoc_get_filter_same. reflexivity.
Qed.

Lemma remove_session_twice_witness :
  remove_session "Alice"
    (Some (filter (fun f => negb (String.eqb "alice_session.json" (fst f))) sample_dir))
  = Ret (false,
         Some (filter (fun f => negb (String.eqb "alice_session.json" (fst f)))
                 sample_dir)).
Proof.
  exact (remove_session_twice "Alice" (Some sample_dir)
           (Some (filter (fun f => negb (String.eqb "alice_session.json" (fst f)))
                    sample_dir))
           eq_refl).
Defined.

Lemma endswith_app (p a : string) : Str.endswith p (a ++ p) = true.
Proof.
  induction a as [|c a IH]; cbn [append Str.endswith].
  - destruct p as [|c p]; cbn [Str.endswith]; [reflexivity|].
    rewrite String.eqb_refl. reflexivity.
  - rewrite IH. apply orb_true_r.
Qed.

Lemma init_session_path_endswith (u : option string) :
  Str.endswith "_session.json" (init_session_path u) = true.
Proof.
  unfold init_session_path. destruct u as [u|]; [|reflexivity].
  destruct (negb (String.eqb u "")); [apply endswith_app | reflexivity].
Qed.

Section Gathering.

Variables (dir_path : string) (stat : string -> stat_result) (clock : nat -> Q).

(** What is true of an entry made from an existing file with a name
    among [files] is true of every entry the loop adds. *)
Lemma collect_sessions_Forall (P : Entry.t -> Prop) (dir : directory)
    (files : list string) :
  (forall f now e, In f files -> Fs.exists_ f dir = true ->
                   session_entry dir_path stat now dir f = Ret e -> P e) ->
  forall (i : nat) (sessions : list Entry.t),
    Forall P sessions ->
    Forall P (collect_sessions dir_path stat clock dir i files sessions) /\
    (List.length (collect_sessions dir_path stat clock dir i files sessions)
     <= List.length sessions + List.length files)%nat.
Proof.
  induction files as [|f rest IH]; intros HP i sessions Hs; cbn [collect_sessions].
  - split; [exact Hs | lia].
  - assert (HP' : forall f0 now e, In f0 rest -> Fs.exists_ f0 dir = true ->
                    session_entry dir_path stat now dir f0 = Ret e -> P e).
    { intros f0 now e Hin. apply HP. right. exact Hin. }
    destruct (Fs.exists_ f dir) eqn:Hex; cbn [negb].
    + destruct (session_entry dir_path stat (clock i) dir f) as [e|] eqn:He;
        cbn [bind try_except].
      * destruct (IH HP' (S i) (sessions ++ [e])%list) as [H1 H2].
        { apply Forall_app. split; [exact Hs|]. constructor; [|constructor].
          exact (HP f (clock i) e (or_introl eq_refl) Hex He). }
        split; [exact H1|]. rewrite length_app in H2.
        cbn [List.length] in H2 |- *. lia.
      * destruct (IH HP' (S i) sessions Hs) as [H1 H2].
        split; [exact H1 | cbn [List.length]; lia].
    + destruct (IH HP' (S i) sessions Hs) as [H1 H2].
      split; [exact H1 | cbn [List.length]; lia].
Qed.

Lemma session_entry_fields (now : Q) (dir : directory) (name : string) (e : Entry.t) :
  session_entry dir_path stat now dir name = Ret e ->
  (exists sd, Py.assoc_get name dir = Some (Some sd)) /\
  Entry.file_name e = name /\
  Entry.file_path e = dir_path ++ "/" ++ name /\
  Entry.file_size e = st_size (stat name) /\
  Py.truthy (Entry.username e) = true.
Proof.
  unfold session_entry, Fs.read_json.
  destruct (Py.assoc_get name dir) as [[sd|]|]; [|discriminate..]. cbn [bind].
  destruct (Py.contains "metadata" sd) as [has|]; [|discriminate]. cbn [bind].
  match goal with
  | |- context [bind ?f _] => destruct f as [[mu [ca lu]]|]; [|discriminate]
  end.
  cbn [bind].
  destruct (compute_is_valid sd now) as [v|]; [|discriminate]. cbn [bind].
  intros [= <-]. cbn. split; [eauto|]. repeat split.
  unfold display_username.
  destruct (Py.truthy mu) eqn:Hmu.
  - rewrite Hmu. exact Hmu.
  - destruct (Py.truthy (opt_str_json (filename_username name))) eqn:Hf;
      [exact Hf | reflexivity].
Qed.

(** X11.  When [list_sessions] returns, it returns the entries it has
    gathered, each once, and no more of them than [glob] has found files
    plus one.  Every entry is about a file of the directory that holds a
    JSON document and has a name ending in [_session.json]; it carries
    the path and the size of that file, and a user name that is not
    empty. *)
Theorem list_sessions_entries_well_formed (d : directory) (sessions : list Entry.t) :
  list_sessions dir_path stat clock (Some d) = Ret sessions ->
  Permutation (readable_entries dir_path stat clock (Some d)) sessions /\
  (List.length sessions <= List.length (Fs.glob_session_files d) + 1)%nat /\
  Forall (fun e =>
            Str.endswith "_session.json" (Entry.file_name e) = true /\
            (exists sd, Py.assoc_get (Entry.file_name e) d = Some (Some sd)) /\
            Entry.file_path e = dir_path ++ "/" ++ Entry.file_name e /\
            Entry.file_size e = st_size (stat (Entry.file_name e)) /\
            Py.truthy (Entry.username e) = true) sessions.
Proof.
  intros Hret. cbn [list_sessions] in Hret.
  apply sorted_reverse_permutation in Hret.
  destruct (collect_sessions_Forall
              (fun e =>
                 Str.endswith "_session.json" (Entry.file_name e) = true /\
                 (exists sd, Py.assoc_get (Entry.file_name e) d = Some (Some sd)) /\
                 Entry.file_path e = dir_path ++ "/" ++ Entry.file_name e /\
                 Entry.file_size e = st_size (stat (Entry.file_name e)) /\
                 Py.truthy (Entry.username e) = true)
              d (session_files d)) with (i := 0%nat) (sessions := @nil Entry.t)
    as [Hall Hlen].
  - intros f now e Hin _ He.
    destruct (session_entry_fields _ _ _ _ He) as (Hsd & Hname & Hpath & Hsize & Hu).
    rewrite Hname. split; [|auto].
    unfold session_files in Hin. apply in_app_or in Hin as [Hin | [<- | []]];
      [|reflexivity].
    unfold Fs.glob_session_files in Hin. apply filter_In in Hin. apply Hin.
  - constructor.
  - rewrite <- readable_entries_gathered in Hret, Hall, Hlen.
    split; [exact Hret|]. split.
    + rewrite <- (Permutation_length Hret).
      unfold session_files in Hlen.
      rewrite length_app in Hlen. cbn [List.length] in Hlen. lia.
    + exact (Permutation_Forall Hret Hall).
Qed.

End Gathering.

Lemma list_sessions_entries_well_formed_witness :
  Permutation
    (readable_entries "/sessions" sample_stat (fun _ => 50) (Some sample_dir))
    sample_listing /\
  (List.length sample_listing <= List.length (Fs.glob_session_files sample_dir) + 1)%nat /\
  Forall (fun e =>
            Str.endswith "_session.json" (Entry.file_name e) = true /\
            (exists sd, Py.assoc_get (Entry.file_name e) sample_dir = Some (Some sd)) /\
            Entry.file_path e = "/sessions" ++ "/" ++ Entry.file_name e /\
            Entry.file_size e = st_size (sample_stat (Entry.file_name e)) /\
            Py.truthy (Entry.username e) = true) sample_listing.
Proof.
  exact (list_sessions_entries_well_formed "/sessions" sample_stat (fun _ => 50)
           sample_dir sample_listing eq_refl).
Defined.

Section AfterRemoval.

Variables (dir_path : string) (stat : string -> stat_result) (clock : nat -> Q).

(** The loop adds no entry for a file that is not there. *)
Lemma collect_sessions_no_entries (dir : directory) (name : string) :
  Fs.exists_ name dir = false ->
  forall (files : list string) (i : nat) (sessions : list Entry.t),
    entries_for name (collect_sessions dir_path stat clock dir i files sessions)
    = entries_for name sessions.
Proof.
  intros Hgone files. induction files as [|f rest IH]; intros i sessions;
    cbn [collect_sessions]; [reflexivity|].
  rewrite IH.
  destruct (Fs.exists_ f dir) eqn:Hex; cbn [negb]; [|reflexivity].
  destruct (session_entry dir_path stat (clock i) dir f) as [e|] eqn:He;
    cbn [bind try_except]; [|reflexivity].
  destruct (session_entry_file_name _ _ _ _ _ _ He) as [Hname _].
  rewrite entries_for_snoc, Hname.
  destruct (string_dec f name) as [->|_]; [congruence | lia].
Qed.

(** X12.  Once [remove_session] has removed the session file of a user
    name, a client of that file cannot load it, and [list_sessions] has no
    entry for it any more. *)
Theorem removed_session_is_gone
    (username : string) (c : client) (now t_touch : Q) (d : directory) :
  Fs.path_exists (remove_session_file username) d = Ret true ->
  session_path c = remove_session_file username ->
  exists d',
    remove_session username (Some d) = Ret (true, Some d') /\
    load_session c now t_touch d' = (false, (c, d')) /\
    entries_for (remove_session_file username)
      (readable_entries dir_path stat clock (Some d')) = 0%nat /\
    (forall sessions,
       list_sessions dir_path stat clock (Some d') = Ret sessions ->
       entries_for (remove_session_file username) sessions = 0%nat).
Proof.
  intros Hthere Hpath.
  assert (Hex : Fs.exists_ (remove_session_file username) d = true).
  { unfold Fs.path_exists in Hthere.
    destruct (Fs.NAME_MAX <? String.length (remove_session_file username))%nat;
      [discriminate | injection Hthere as Hthere; exact Hthere]. }
  exists (filter (fun f => negb (String.eqb (remove_session_file username) (fst f))) d).
  assert (Hgone : Fs.exists_ (remove_session_file username)
                    (filter (fun f => negb (String.eqb (remove_session_file username)
                                                       (fst f))) d) = false).
  { unfold Fs.exists_. rewrite assoc_get_filter_same. reflexivity. }
  split; [|split; [|split]].
  - unfold remove_session, Fs.unlink. rewrite Hthere. cbn [bind negb].
    rewrite Hex. reflexivity.
  - unfold load_session, load_session_result. rewrite Hpath, Hgone. reflexivity.
  - rewrite readable_entries_gathered.
    rewrite (collect_sessions_no_entries _ _ Hgone). reflexivity.
  - intros sessions Hret. cbn [list_sessions] in Hret.
    apply sorted_reverse_permutation in Hret. unfold entries_for.
    rewrite <- (proj1 (Permutation_count_occ string_dec _ _)
                  (Permutation_map Entry.file_name Hret)).
    fold (entries_for (remove_session_file username)
            (collect_sessions dir_path stat clock
               (filter (fun f => negb (String.eqb (remove_session_file username)
                                                  (fst f))) d)
               0
               (session_files
                  (filter (fun f => negb (String.eqb (remove_session_file username)
                                                     (fst f))) d))
               [])).
    rewrite (collect_sessions_no_entries _ _ Hgone). reflexivity.
Qed.

End AfterRemoval.

Lemma removed_session_is_gone_witness :
  exists d',
    remove_session "ALICE" (Some sample_dir) = Ret (true, Some d') /\
    load_session (init (Some "Alice")) 50 51 d' = (false, (init (Some "Alice"), d')) /\
    entries_for (remove_session_file "ALICE")
      (readable_entries "/sessions" sample_stat (fun _ => 50) (Some d')) = 0%nat /\
    (forall sessions,
       list_sessions "/sessions" sample_stat (fun _ => 50) (Some d') = Ret sessions ->
       entries_for (remove_session_file "ALICE") sessions = 0%nat).
Proof.
  exact (removed_session_is_gone "/sessions" sample_stat (fun _ => 50) "ALICE"
           (init (Some "Alice")) 50 51 sample_dir eq_refl eq_refl).
Defined.

Section AfterSaving.

Variables (dir_path : string) (stat : string -> stat_result) (clock : nat -> Q).

(** The entry [list_sessions] makes of a file that [_save_session] wrote. *)
Lemma session_entry_of_saved (c : client) (state : list (string * json))
    (cookies : list json) (t_created t_last_used now : Q) (dir : directory) :
  is_logged_in c = true ->
  page c = true ->
  Py.assoc_get "cookies" state = Some (JArr cookies) ->
  Forall wf_cookie cookies ->
  exists valid,
    session_entry dir_path stat now
      (_save_session c (Ret (JObj state)) t_created t_last_used dir) (session_path c)
    = Ret (Entry.mk
             (first_truthy
                [current_username c; opt_str_json (filename_username (session_path c))]
                (JStr unknown_username))
             (dir_path ++ "/" ++ session_path c) (session_path c)
             (JNum t_created) (JNum t_last_used)
             (st_size (stat (session_path c))) valid).
Proof.
  intros Hlogged Hpage Hcookies Hwf.
  destruct (any_valid_sessionid_returns now cookies Hwf) as [b Hb]. exists b.
  unfold _save_session. rewrite Hlogged, Hpage. cbn [negb orb bind try_except].
  unfold session_entry. rewrite read_json_write_json. cbn [bind].
  cbn [Py.contains Py.assoc_get String.eqb Ascii.eqb Bool.eqb Py.getitem Py.get bind].
  rewrite (compute_is_valid_stored _ (Some cookies));
    [|eapply stored_list; [reflexivity | exact Hcookies]].
  rewrite Hb. cbn [bind]. rewrite display_username_first_truthy. reflexivity.
Qed.

(** X13.  A session that a logged-in client saves is listed: the list
    gathered from the directory has an entry for the session file, and
    every entry for that file shows the two clock readings of the save as
    [created_at] and [last_used], and as user name the user name of the
    client or, when that is empty, the one in the file name. *)
Theorem saved_session_is_listed
    (c : client) (state : list (string * json)) (cookies : list json)
    (t_created t_last_used : Q) (dir : directory) :
  is_logged_in c = true ->
  page c = true ->
  path_consistent c ->
  Py.assoc_get "cookies" state = Some (JArr cookies) ->
  Forall wf_cookie cookies ->
  let saved := _save_session c (Ret (JObj state)) t_created t_last_used dir in
  (1 <= entries_for (session_path c)
          (readable_entries dir_path stat clock (Some saved)))%nat /\
  Forall (fun e =>
            Entry.file_name e = session_path c ->
            Entry.created_at e = JNum t_created /\
            Entry.last_used e = JNum t_last_used /\
            Entry.username e =
              first_truthy
                [current_username c; opt_str_json (filename_username (session_path c))]
                (JStr unknown_username))
         (readable_entries dir_path stat clock (Some saved)).
Proof.
  intros Hlogged Hpage Hpath Hcookies Hwf saved.
  assert (Hentry := fun now =>
            session_entry_of_saved c state cookies t_created t_last_used now dir
              Hlogged Hpage Hcookies Hwf).
  fold saved in Hentry. rewrite readable_entries_gathered. split.
  - rewrite (collect_sessions_entries_for dir_path stat clock saved (session_path c)).
    + assert (Hin : In (session_path c) (session_files saved)).
      { unfold session_files. apply in_or_app. left.
        unfold Fs.glob_session_files. apply filter_In. split.
        - apply assoc_get_In_fst. unfold saved, _save_session.
          rewrite Hlogged, Hpage. cbn [negb orb bind try_except].
          unfold Fs.write_json. rewrite assoc_get_set_same. discriminate.
        - rewrite Hpath. apply init_session_path_endswith. }
      apply (count_occ_In string_dec) in Hin. cbn [entries_for map count_occ]. lia.
    + intros now. destruct (Hentry now) as [b Hb]. eauto.
  - apply collect_sessions_Forall; [|constructor].
    intros f now e _ _ He Hname.
    destruct (session_entry_file_name _ _ _ _ _ _ He) as [Hf _].
    rewrite Hname in Hf. subst f.
    destruct (Hentry now) as [b Hb]. rewrite Hb in He. injection He as <-.
    repeat split.
Qed.

End AfterSaving.

Lemma saved_session_is_listed_witness :
  let saved :=
    _save_session sample_logged_in (Ret (sample_state 100)) 10 11 sample_dir in
  le 1 (entries_for "alice_session.json"
          (readable_entries "/sessions" sample_stat (fun _ => 50) (Some saved))) /\
  Forall (fun e =>
            Entry.file_name e = "alice_session.json" ->
            Entry.created_at e = JNum 10 /\
            Entry.last_used e = JNum 11 /\
            Entry.username e =
              first_truthy
                [JStr "alice"; opt_str_json (filename_username "alice_session.json")]
                (JStr unknown_username))
         (readable_entries "/sessions" sample_stat (fun _ => 50) (Some saved)).
Proof.
  exact (saved_session_is_listed "/sessions" sample_stat (fun _ => 50) sample_logged_in
           [("cookies", JArr (sample_cookies 100)); ("origins", JArr [])]
           (sample_cookies 100) 10 11 sample_dir eq_refl eq_refl eq_refl eq_refl
           (sample_cookies_wf 100)).
Defined.

(** ** Verifying the login *)

Lemma fall_back_on_username_fields (c : client) :
  is_logged_in (fall_back_on_username c) = true /\
  page (fall_back_on_username c) = page c /\
  username (fall_back_on_username c) = username c /\
  session_path (fall_back_on_username c) = session_path c.
Proof.
  unfold fall_back_on_username. destruct (truthy_str (username c)); repeat split.
Qed.

(** What [verify_login_status] does to the client. *)
Lemma verify_login_status_fields (c : client) (obs : verify_obs) :
  let ok := fst (fst (verify_login_status c obs)) in
  let c' := snd (fst (verify_login_status c obs)) in
  (ok = false -> c' = c) /\
  (ok = true -> is_logged_in c' = true) /\
  page c' = page c /\
  (truthy_str (username c) = true ->
   username c' = username c /\ session_path c' = session_path c).
Proof.
  cbv zeta. unfold verify_login_status.
  destruct (page c) eqn:Hpage; cbn [negb];
    [|repeat split; (discriminate || assumption || reflexivity)].
  destruct (goto_profile obs);
    [|repeat split; (discriminate || assumption || reflexivity)].
  destruct (Str.contains "login" (profile_url obs));
    [repeat split; (discriminate || assumption || reflexivity)|].
  destruct (extract_username obs) as [log extracted].
  pose proof (fall_back_on_username_fields c) as (F1 & F2 & F3 & F4).
  destruct extracted as [extracted|];
    [|cbn [fst snd]; rewrite F2, F3, F4; repeat split; (discriminate || assumption)].
  destruct (truthy_str extracted) eqn:Hext;
    [|cbn [fst snd]; rewrite F2, F3, F4; repeat split; (discriminate || assumption)].
  cbn [fst snd set_current_username username andb].
  split; [discriminate|]. split; [intros _|split].
  - destruct (negb (truthy_str (username c))); reflexivity.
  - destruct (negb (truthy_str (username c))); cbn; exact Hpage.
  - intros Hu. rewrite Hu. cbn. split; reflexivity.
Qed.

Lemma verify_login_status_path_consistent (c : client) (obs : verify_obs) :
  path_consistent c -> path_consistent (snd (fst (verify_login_status c obs))).
Proof.
  intros Hc. unfold verify_login_status.
  destruct (page c); cbn [negb]; [|exact Hc].
  destruct (goto_profile obs); [|exact Hc].
  destruct (Str.contains "login" (profile_url obs)); [exact Hc|].
  destruct (extract_username obs) as [log extracted].
  pose proof (fall_back_on_username_fields c) as (_ & _ & F3 & F4).
  assert (Hf : path_consistent (fall_back_on_username c)).
  { unfold path_consistent. rewrite F3, F4. exact Hc. }
  destruct extracted as [extracted|]; [|exact Hf].
  destruct (truthy_str extracted) eqn:Hext; [|exact Hf].
  cbn [fst snd set_current_username username andb].
  destruct (negb (truthy_str (username c))); [|exact Hc].
  destruct extracted as [name|]; [|discriminate].
  unfold path_consistent. cbn. cbn in Hext. rewrite Hext. reflexivity.
Qed.

(** X14.  [verify_login_status] changes nothing when it returns false and
    has set [is_logged_in] when it returns true; it never opens or closes
    the page; and a client that was given a user name keeps that name and
    its session path, whatever name the page shows. *)
Theorem verify_login_status_effects (c : client) (obs : verify_obs) :
  let ok := fst (fst (verify_login_status c obs)) in
  let c' := snd (fst (verify_login_status c obs)) in
  (ok = false -> c' = c) /\
  (ok = true -> is_logged_in c' = true) /\
  page c' = page c /\
  (truthy_str (username c) = true ->
   username c' = username c /\ session_path c' = session_path c).
Proof. exact (verify_login_status_fields c obs). Qed.

(** X15.  The session path of a client stays the one that the constructor
    gives for its user name: [__init__] sets it so, and
    [verify_login_status], which may adopt the user name the page shows,
    and [load_session] keep it so.  A client built afresh with the user
    name of an old one therefore looks at the same file. *)
Theorem session_path_follows_username
    (u : option string) (c : client) (obs : verify_obs) (now t_touch : Q)
    (dir : directory) :
  path_consistent c ->
  path_consistent (init u) /\
  path_consistent (snd (fst (verify_login_status c obs))) /\
  path_consistent (fst (snd (load_session c now t_touch dir))) /\
  session_path (init (username (snd (fst (verify_login_status c obs)))))
  = session_path (snd (fst (verify_login_status c obs))).
Proof.
  intros Hc. split; [reflexivity|].
  pose proof (verify_login_status_path_consistent c obs Hc) as Hv.
  split; [exact Hv|]. split.
  - pose proof (load_session_leaves_alone c now t_touch dir) as (_ & _ & Hu & Hp & _).
    unfold path_consistent. rewrite Hu, Hp. exact Hc.
  - symmetry. exact Hv.
Qed.

Lemma session_path_follows_username_witness :
  path_consistent (init (Some "Bob")) /\
  path_consistent (snd (fst (verify_login_status (set_page true (init None))
                               sample_verify))) /\
  path_consistent
    (fst (snd (load_session (set_page true (init None)) 50 51 sample_dir))) /\
  session_path (init (username (snd (fst (verify_login_status (set_page true (init None))
                                             sample_verify)))))
  = "alice_session.json".
Proof.
  exact (session_path_follows_username (Some "Bob") (set_page true (init None))
           sample_verify 50 51 sample_dir eq_refl).
Defined.

(** ** What a login leaves behind *)

Lemma set_page_true_false (c : client) :
  page c = true -> set_page true (set_page false c) = c.
Proof. destruct c as [u p pg l cu]. cbn. intros ->. reflexivity. Qed.

(** How a turn of the loop ends, for the directory and for the client. *)
Lemma login_turn_outcome (max_retries retry_count : nat) (c : client) (a : attempt)
    (dir : directory) :
  match fst (login_turn max_retries retry_count c a dir) with
  | Return false c' dir' => dir' = dir /\ (path_consistent c -> path_consistent c')
  | Return true c' dir' =>
      is_logged_in c' = true /\
      dir' = _save_session (set_page true c') (storage_state a) (t_created a)
               (t_last_used a) dir /\
      (path_consistent c -> path_consistent c')
  | Continue c' => path_consistent c -> path_consistent c'
  end.
Proof.
  unfold login_turn. destruct (init_ok a); cbn [negb fst]; [|exact (fun H => H)].
  unfold login_try.
  destruct (goto_login a) as [?|e];
    [|destruct e; cbn [fst]; try (split; [reflexivity|]); exact (fun H => H)].
  destruct (wait_for_url BASE_URL 300000 (navigations a)) as [elapsed|e];
    [|destruct e; cbn [fst]; try (split; [reflexivity|]); exact (fun H => H)].
  cbv zeta. rewrite base_url_is_not_login. cbn [negb].
  pose proof (verify_login_status_fields (set_page true c) (verify a))
    as (_ & Hlogged & Hpage & _).
  pose proof (verify_login_status_path_consistent (set_page true c) (verify a))
    as Hpath.
  cbv zeta in Hlogged, Hpage.
  destruct (verify_login_status (set_page true c) (verify a)) as [[ok c'] log].
  cbn [fst snd] in Hlogged, Hpage, Hpath.
  destruct ok; cbn [fst].
  - split; [exact (Hlogged eq_refl)|]. split; [|exact Hpath].
    rewrite set_page_true_false by exact Hpage. reflexivity.
  - split; [reflexivity | exact Hpath].
Qed.

Lemma manual_login_loop_outcome (max_retries : nat) (env : nat -> attempt)
    (dir : directory) (n : nat) :
  forall (c : client) (retry_count : nat),
    (max_retries - retry_count = n)%nat ->
    let r := manual_login_loop max_retries env dir c retry_count in
    (path_consistent c -> path_consistent (fst (snd (fst r)))) /\
    (fst (fst r) = false -> snd (snd (fst r)) = dir) /\
    (fst (fst r) = true ->
     is_logged_in (fst (snd (fst r))) = true /\
     exists i, (retry_count <= i < max_retries)%nat /\
       snd (snd (fst r))
       = _save_session (set_page true (fst (snd (fst r)))) (storage_state (env i))
           (t_created (env i)) (t_last_used (env i)) dir).
Proof.
  induction n as [|n IH]; intros c k Hn; cbv zeta;
    rewrite manual_login_loop_step; destruct (lt_dec k max_retries) as [Hlt|Hge];
    try lia;
    try (cbn [fst snd]; split; [exact (fun H => H)|]; split;
         [reflexivity | discriminate]).
  pose proof (login_turn_outcome max_retries k c (env k) dir) as Hturn.
  destruct (login_turn max_retries k c (env k) dir) as [[result c' dir'|c'] log].
  - cbn [fst snd] in Hturn |- *. destruct result.
    + destruct Hturn as (Hlogged & Hdir & Hpath).
      split; [exact Hpath|]. split; [discriminate|]. intros _.
      split; [exact Hlogged|]. exists k. split; [lia | exact Hdir].
    + destruct Hturn as (Hdir & Hpath).
      split; [exact Hpath|]. split; [intros _; exact Hdir | discriminate].
  - cbn [fst] in Hturn. specialize (IH c' (S k) ltac:(lia)). cbv zeta in IH.
    destruct (manual_login_loop max_retries env dir c' (S k)) as [r log'].
    cbn [fst snd] in IH |- *. destruct IH as (Hpath & Hfalse & Htrue).
    split; [intros H; exact (Hpath (Hturn H))|]. split; [exact Hfalse|].
    intros Hr. destruct (Htrue Hr) as (Hlogged & i & Hi & Hdir).
    split; [exact Hlogged|]. exists i. split; [lia | exact Hdir].
Qed.

(** X16.  A login that fails writes nothing: when [manual_login] returns
    false the session directory is as it was. *)
Theorem manual_login_false_writes_nothing
    (max_retries : nat) (env : nat -> attempt) (c : client) (dir : directory) :
  fst (fst (manual_login max_retries env c dir)) = false ->
  snd (snd (fst (manual_login max_retries env c dir))) = dir.
Proof.
  exact (proj1 (proj2 (manual_login_loop_outcome max_retries env dir max_retries c 0
                         ltac:(lia)))).
Qed.

Lemma manual_login_false_writes_nothing_witness :
  snd (snd (fst (manual_login 3 (fun _ => attempt_leaving_login) (init (Some "alice"))
                   sample_dir))) = sample_dir.
Proof.
  exact (manual_login_false_writes_nothing 3 (fun _ => attempt_leaving_login)
           (init (Some "alice")) sample_dir eq_refl).
Defined.



Lemma manual_login_loop_init_failed (max_retries : nat) (env : nat -> attempt)
    (dir : directory) (n : nat) :
  forall (c : client) (retry_count : nat),
    (max_retries - retry_count = n)%nat ->
    (forall i, (retry_count <= i < max_retries)%nat -> init_ok (env i) = false) ->
    let r := manual_login_loop max_retries env dir c retry_count in
    fst (fst r) = false /\ snd (snd (fst r)) = dir /\ snd r = init_failed_log n.
Proof.
  induction n as [|n IH]; intros c k Hn Hall; cbv zeta;
    rewrite manual_login_loop_step; destruct (lt_dec k max_retries) as [Hlt|Hge];
    try lia; try (cbn; repeat split; reflexivity).
  unfold login_turn. rewrite (Hall k ltac:(lia)). cbn [negb].
  specialize (IH (set_page false c) (S k) ltac:(lia)
                 ltac:(intros i Hi; apply Hall; lia)).
  cbv zeta in IH.
  destruct (manual_login_loop max_retries env dir (set_page false c) (S k)) as [r log'].
  cbn [fst snd] in IH |- *. destruct IH as (Hr & Hdir & Hlog).
  rewrite Hlog. repeat split; assumption.
Qed.

Lemma init_failed_log_totals (n : nat) :
  attempts (init_failed_log n) = n /\
  paused (init_failed_log n) = (2 * Z.of_nat n)%Z.
Proof.
  induction n as [|n [IHa IHp]]; [split; reflexivity|].
  cbn [init_failed_log]. split.
  - change (S (attempts (init_failed_log n)) = S n). rewrite IHa. reflexivity.
  - cbn [paused]. rewrite IHp. lia.
Qed.

(** X18.  When the browser cannot be started, [manual_login] tries
    [max_retries] times and returns false without touching a file; it
    pauses two seconds after every failed start, the last one included,
    so that it has slept twice [max_retries] seconds when it gives up. *)
Theorem manual_login_browser_never_starts
    (max_retries : nat) (env : nat -> attempt) (c : client) (dir : directory) :
  (forall i, (i < max_retries)%nat -> init_ok (env i) = false) ->
  let r := manual_login max_retries env c dir in
  fst (fst r) = false /\
  snd (snd (fst r)) = dir /\
  snd r = init_failed_log max_retries /\
  attempts (snd r) = max_retries /\
  paused (snd r) = (2 * Z.of_nat max_retries)%Z.
Proof.
  intros Hall. cbv zeta. unfold manual_login.
  destruct (manual_login_loop_init_failed max_retries env dir max_retries c 0
              ltac:(lia) ltac:(intros i Hi; apply Hall; lia)) as (Hr & Hdir & Hlog).
  rewrite Hlog. destruct (init_failed_log_totals max_retries) as [Ha Hp].
  repeat split; assumption.
Qed.

Lemma manual_login_browser_never_starts_witness :
  let r :=
    manual_login 3
      (fun _ => mkAttempt false (Ret tt) [] sample_verify (Ret JNull) 0 0)
      (init None) sample_dir in
  fst (fst r) = false /\
  snd (snd (fst r)) = sample_dir /\
  snd r = init_failed_log 3 /\
  attempts (snd r) = 3%nat /\
  paused (snd r) = 6%Z.
Proof.
  refine (manual_login_browser_never_starts 3
            (fun _ => mkAttempt false (Ret tt) [] sample_verify (Ret JNull) 0 0)
            (init None) sample_dir _).
  intros i _. reflexivity.
Defined.

(** ** The directory and the name of the session file *)

(** X19.  The constructor and the class methods [list_sessions] and
    [remove_session] settle on the same session directory for the same
    arguments, except when the directory is given as the empty string:
    the constructor then takes it as a directory, and the class methods
    fall back on the project or home directory as if none were given. *)
Theorem session_dir_agreement (dir : option string) (use_project_dir : bool) :
  (dir <> Some "" ->
   class_session_dir dir use_project_dir = init_session_dir dir use_project_dir) /\
  class_session_dir (Some "") use_project_dir = init_session_dir None use_project_dir /\
  init_session_dir (Some "") use_project_dir = Named "".
Proof.
  split; [|split; reflexivity].
  intros Hne. destruct dir as [p|]; [|reflexivity]. cbn.
  destruct (String.eqb p "") eqn:E; [|reflexivity].
  apply String.eqb_eq in E. congruence.
Qed.

Lemma str_app_nil_r (s : string) : s ++ "" = s.
Proof. induction s as [|c s IH]; cbn; [reflexivity | rewrite IH; reflexivity]. Qed.

Lemma str_app_assoc (a b c : string) : (a ++ b) ++ c = a ++ b ++ c.
Proof. induction a as [|x a IH]; cbn; [reflexivity | rewrite IH; reflexivity]. Qed.

(** A prefix of [x ++ y] that is no longer than [x] is a prefix of [x]. *)
Lemma startswith_shorter (p x y : string) :
  Str.startswith p (x ++ y) = true ->
  (String.length p <= String.length x)%nat ->
  Str.startswith p x = true.
Proof.
  revert x. induction p as [|c p IH]; intros x; [destruct x; reflexivity|].
  destruct x as [|d x]; cbn; [lia|].
  destruct (Ascii.eqb c d); cbn; [|discriminate].
  intros H Hlen. apply IH; [exact H | lia].
Qed.

Lemma startswith_refl (p : string) : Str.startswith p p = true.
Proof.
  induction p as [|c p IH]; cbn; [reflexivity|].
  rewrite Ascii.eqb_refl, IH. reflexivity.
Qed.

Lemma replace_from_skip_all (p r a : string) :
  Str.replace_from p r a (String.length a) = "".
Proof. induction a as [|c a IH]; cbn; [reflexivity | exact IH]. Qed.

(** Taking [p] out of [u ++ p] gives [u] back when [p] occurs nowhere
    before the end, that is, not in [u] followed by [p] less its last
    character. *)
Lemma replace_suffix (p q u : string) (l : ascii) :
  p = q ++ String l "" ->
  Str.contains p (u ++ q) = false ->
  Str.replace p "" (u ++ p) = u.
Proof.
  intros Hp. unfold Str.replace.
  assert (Hlen : String.length p = S (String.length q)).
  { rewrite Hp, str_length_app. cbn. lia. }
  induction u as [|c u IH]; intros Hno.
  - cbn [append]. destruct p as [|c p]; [discriminate|].
    cbn [Str.replace_from]. rewrite startswith_refl.
    replace (String.length (String c p) - 1)%nat with (String.length p)
      by (cbn [String.length]; lia).
    apply replace_from_skip_all.
  - cbn [append] in Hno |- *. cbn [Str.contains] in Hno.
    apply orb_false_iff in Hno as [Hhere Hlater].
    cbn [Str.replace_from].
    destruct (Str.startswith p (String c (u ++ p))) eqn:Hstart.
    + exfalso. rewrite Hp in Hstart at 2.
      rewrite <- str_app_assoc in Hstart.
      change (String c ((u ++ q) ++ String l ""))
        with (String c (u ++ q) ++ String l "") in Hstart.
      apply startswith_shorter in Hstart.
      * congruence.
      * rewrite Hlen. cbn [String.length]. rewrite str_length_app. lia.
    + rewrite (IH Hlater). reflexivity.
Qed.

Lemma lower_not_empty (u : string) : u <> "" -> Str.lower u <> "".
Proof. destruct u; [congruence | discriminate]. Qed.

(** X20.  The user name that [list_sessions] reads off a file name is the
    lower-cased user name that [__init__] put into it, and
    [remove_session] called with that name finds the same file, provided
    the user name is ASCII, neither empty nor [default], and
    [_session.json] does not occur in the file name before its end. *)
Theorem filename_username_round_trip (u : string) :
  Str.isascii u = true ->
  u <> "" ->
  Str.lower u <> "default" ->
  Str.contains "_session.json" (Str.lower u ++ "_session.jso") = false ->
  lowercased u (Str.lower u) /\
  filename_username (init_session_path (Some u)) = Some (Str.lower u) /\
  display_username JNull (filename_username (init_session_path (Some u)))
    = JStr (Str.lower u) /\
  remove_session_file (Str.lower u) = init_session_path (Some u).
Proof.
  intros _ Hu Hdef Hocc.
  assert (Hpath : init_session_path (Some u) = Str.lower u ++ "_session.json").
  { unfold init_session_path. apply String.eqb_neq in Hu. rewrite Hu. reflexivity. }
  assert (Hname : filename_username (init_session_path (Some u)) = Some (Str.lower u)).
  { rewrite Hpath. unfold filename_username. rewrite endswith_app.
    rewrite (replace_suffix "_session.json" "_session.jso" (Str.lower u) "n"%char
               eq_refl Hocc).
    apply String.eqb_neq in Hdef. rewrite Hdef. reflexivity. }
  split; [apply lower_lowercased|]. split; [exact Hname|]. split.
  - rewrite Hname. unfold display_username. cbn [Py.truthy opt_str_json negb].
    pose proof (lower_not_empty u Hu) as Hl. apply String.eqb_neq in Hl.
    rewrite Hl. reflexivity.
  - rewrite remove_session_file_name, lower_idempotent, Hpath. reflexivity.
Qed.

Lemma filename_username_round_trip_witness :
  lowercased "Alice_99" "alice_99" /\
  filename_username (init_session_path (Some "Alice_99")) = Some "alice_99" /\
  display_username JNull (filename_username (init_session_path (Some "Alice_99")))
    = JStr "alice_99" /\
  remove_session_file "alice_99" = init_session_path (Some "Alice_99").
Proof.
  refine (filename_username_round_trip "Alice_99" eq_refl _ _ eq_refl); discriminate.
Defined.

(** ** What the list shows and what a load would do *)

Section ListAndLoad.

Variables (dir_path : string) (stat : string -> stat_result) (clock : nat -> Q).

(** X21.  The [is_valid] of an entry is what [load_session] would return
    for the file at the same moment: when [list_sessions] can make an
    entry of a file at all, a client of that file loads it exactly when
    the entry says it is valid.  Nothing is assumed of the file. *)
Theorem is_valid_agrees_with_load_session
    (c : client) (now t_touch : Q) (dir : directory) (e : Entry.t) :
  session_entry dir_path stat now dir (session_path c) = Ret e ->
  fst (load_session c now t_touch dir) = Entry.is_valid e.
Proof.
  unfold session_entry, Fs.read_json.
  destruct (Py.assoc_get (session_path c) dir) as [[sd|]|] eqn:Hfile;
    [|discriminate..].
  cbn [bind]. intros He. unfold load_session.
  rewrite (load_session_result_compute c dir now t_touch sd Hfile).
  assert (Hmd : exists r, load_metadata c sd t_touch dir = Ret r).
  { unfold load_metadata.
    destruct (Py.contains "metadata" sd) as [[|]|]; cbn [bind] in He |- *;
      [| eauto | discriminate He].
    destruct sd as [| b | q | s | items | top]; cbn [Py.getitem bind] in He |- *;
      try discriminate He.
    destruct (Py.assoc_get "metadata" top) as [md|];
      cbn [bind] in He |- *; [|discriminate He].
    destruct md as [| b | q | s | items | fields]; cbn [Py.get bind] in He |- *;
      try discriminate He.
    cbn [Py.setitem bind]. eauto. }
  destruct Hmd as [[c' dir'] Hmd].
  destruct (Py.contains "metadata" sd) as [has|]; [|discriminate].
  cbn [bind] in He.
  match type of He with
  | context [bind ?f _] => destruct f as [[mu [ca lu]]|]; [|discriminate]
  end.
  cbn [bind] in He.
  destruct (compute_is_valid sd now) as [v|]; [|discriminate].
  cbn [bind] in He. injection He as <-. cbn [Entry.is_valid].
  destruct v.
  - rewrite Hmd. reflexivity.
  - destruct (Py.contains "storage_state" sd) as [[|]|]; reflexivity.
Qed.

Lemma collect_sessions_entries_bound (dir : directory) (name : string) :
  forall (files : list string) (i : nat) (sessions : list Entry.t),
    (entries_for name (collect_sessions dir_path stat clock dir i files sessions)
     <= entries_for name sessions + count_occ string_dec files name)%nat.
Proof.
  intros files. induction files as [|f rest IH]; intros i sessions;
    cbn [collect_sessions count_occ]; [lia|].
  specialize (IH (S i)).
  destruct (Fs.exists_ f dir); cbn [negb].
  - destruct (session_entry dir_path stat (clock i) dir f) as [e|] eqn:He;
      cbn [bind try_except].
    + specialize (IH (sessions ++ [e])%list).
      destruct (session_entry_file_name _ _ _ _ _ _ He) as [Hname _].
      rewrite entries_for_snoc, Hname in IH.
      destruct (string_dec f name); lia.
    + specialize (IH sessions). destruct (string_dec f name); lia.
  - specialize (IH sessions). destruct (string_dec f name); lia.
Qed.

(** X22.  Only the default file is listed twice: in a directory of
    distinct names, [list_sessions] has at most one entry for a file that
    is not [default_session.json]. *)
Theorem list_sessions_lists_others_once
    (d : directory) (name : string) (sessions : list Entry.t) :
  NoDup (map fst d) ->
  name <> "default_session.json" ->
  list_sessions dir_path stat clock (Some d) = Ret sessions ->
  (entries_for name sessions <= 1)%nat.
Proof.
  intros Hnd Hname Hret. cbn [list_sessions] in Hret.
  apply sorted_reverse_permutation in Hret. unfold entries_for.
  rewrite <- (proj1 (Permutation_count_occ string_dec _ _)
                (Permutation_map Entry.file_name Hret)).
  change (entries_for name
            (collect_sessions dir_path stat clock d 0 (session_files d) []) <= 1)%nat.
  pose proof (collect_sessions_entries_bound d name (session_files d) 0 []) as Hb.
  unfold session_files in Hb at 2. rewrite count_occ_app in Hb.
  cbn [entries_for map count_occ] in Hb.
  destruct (string_dec "default_session.json" name) as [E|_]; [congruence|].
  pose proof (proj1 (NoDup_count_occ string_dec (Fs.glob_session_files d))
                (NoDup_filter _ Hnd) name) as Hle.
  unfold entries_for in Hb |- *. lia.
Qed.

End ListAndLoad.

Lemma is_valid_agrees_with_load_session_witness :
  fst (load_session (init (Some "Carol")) 50 51 sample_dir) = false.
Proof.
  exact (is_valid_agrees_with_load_session "/sessions" sample_stat
           (init (Some "Carol")) 50 51 sample_dir
           (Entry.mk (JStr "carol") "/sessions/carol_session.json" "carol_session.json"
                     (JNum 3) (JNum 6) 512 false) eq_refl).
Defined.

Lemma list_sessions_lists_others_once_witness :
  (entries_for "alice_session.json" sample_listing <= 1)%nat.
Proof.
  refine (list_sessions_lists_others_once "/sessions" sample_stat (fun _ => 50)
            sample_dir "alice_session.json" sample_listing sample_dir_NoDup _ eq_refl).
  discriminate.
Defined.

(** ** From a login to the next load *)




